(** * OIL-Logistics: inventory ledger, purchase and sales ledgers, pricing

    A shallow embedding of the four Streamlit pages of the repository:

      - [App]        src/app.py                          (dashboard, pricing)
      - [Refining]   src/Inventory_&_Refining.py         (refining form)
      - [Purchase]   src/pages/1_..._Purchase_Management.py
      - [Sales]      src/pages/3_..._Sales_Management.py

    The three CSV files (inventory, purchases, sales) are pandas data frames
    with a default RangeIndex: they are modelled as lists of rows, the index
    label of a row being its position.  A page run that raises a Python
    exception saves nothing: handlers return [None] in that case.

    Quantities, prices and the clock are Python floats in the source.  The
    pages are embedded over exact rationals ([Q]), which mirror every single
    update and every branch of the code, with [round] modelled exactly (half
    to even); the refining form and the price calculation are embedded a
    second time over the kernel's binary64 floats ([Float64]) for what
    depends on the rounding of each operation.  The day of the year and the
    wall clock, which the source reads from [time], are explicit
    arguments. *)

From Stdlib Require Import Floats.
From Stdlib Require Import ZArith QArith Qround Lqa Lia List Bool String DecimalString.
From Stdlib Require DecimalPos DecimalZ.
Import ListNotations.
Open Scope Q_scope.

(** ** Constants shared by the pages *)

(** The keys of [OIL_DENSITIES]: "Crude Degummed Oil", "Palm Oil",
    "Palm Degummed", "Crude Sunflower Oil". *)
Inductive Oil : Type :=
  | CrudeDegummedOil
  | PalmOil
  | PalmDegummed
  | CrudeSunflowerOil.

Definition OIL_DENSITIES (oil : Oil) : Q :=
  match oil with
  | CrudeDegummedOil => 92 # 100
  | PalmOil => 915 # 1000
  | PalmDegummed => 918 # 1000
  | CrudeSunflowerOil => 922 # 1000
  end.

Definition OIL_TYPES : list Oil :=
  [CrudeDegummedOil; PalmOil; PalmDegummed; CrudeSunflowerOil].

Definition TRANSPORT_COST_PER_KM : Q := 12.
Definition IGST_RATE : Q := 5 # 100.

Definition Oil_eqb (a b : Oil) : bool :=
  match a, b with
  | CrudeDegummedOil, CrudeDegummedOil
  | PalmOil, PalmOil
  | PalmDegummed, PalmDegummed
  | CrudeSunflowerOil, CrudeSunflowerOil => true
  | _, _ => false
  end.

(** The column [InventoryType] of inventory.csv. *)
Inductive InventoryType : Type := Crude | Refined.

Definition InventoryType_eqb (a b : InventoryType) : bool :=
  match a, b with
  | Crude, Crude | Refined, Refined => true
  | _, _ => false
  end.

(** [SHIPMENT_STATUSES]: "In Transit", "At Port", "Reached Factory". *)
Inductive ShipmentStatus : Type := InTransit | AtPort | ReachedFactory.

Definition ShipmentStatus_eqb (a b : ShipmentStatus) : bool :=
  match a, b with
  | InTransit, InTransit | AtPort, AtPort | ReachedFactory, ReachedFactory => true
  | _, _ => false
  end.

(** [ORDER_STATUSES]: "Under Process", "Confirmed", "Dispatched", "Fulfilled". *)
Inductive OrderStatus : Type := UnderProcess | Confirmed | Dispatched | Fulfilled.

(** ** The three tables *)

Module Inv.
Record row : Type := mk {
  OilType : Oil;
  InventoryType : InventoryType;
  QuantityMT : Q
}.

Definition set_QuantityMT (r : row) (q : Q) : row :=
  mk (OilType r) (InventoryType r) q.
End Inv.

Module Pur.
Record row : Type := mk {
  ShipmentID : string;
  OilType : Oil;
  QuantityMT : Q;
  PricePerMT : Q;
  TotalCost : Q;
  PurchaseDate : string;
  Status : ShipmentStatus;
  Supplier : string
}.

Definition set_Status (r : row) (s : ShipmentStatus) : row :=
  mk (ShipmentID r) (OilType r) (QuantityMT r) (PricePerMT r) (TotalCost r)
     (PurchaseDate r) s (Supplier r).
End Pur.

Module Sal.
Record row : Type := mk {
  OrderID : string;
  VendorName : string;
  Destination : string;
  DistanceKM : Z;
  OilType : Oil;
  QuantityMT : Q;
  SalePrice : Z;
  OrderDate : string;
  Status : OrderStatus
}.

Definition set_Status (r : row) (s : OrderStatus) : row :=
  mk (OrderID r) (VendorName r) (Destination r) (DistanceKM r) (OilType r)
     (QuantityMT r) (SalePrice r) (OrderDate r) s.
End Sal.

Definition Inventory : Type := list Inv.row.
Definition Purchases : Type := list Pur.row.
Definition SalesTable : Type := list Sal.row.

(** ** The pandas operations the pages use *)

(** [df.index[mask]]: the labels of the rows that satisfy [mask], in order. *)
Fixpoint index_where {A : Type} (mask : A -> bool) (df : list A) : list nat :=
  match df with
  | [] => []
  | r :: df' =>
      let rest := map S (index_where mask df') in
      if mask r then O :: rest else rest
  end.

(** [df.loc[idx, col] = f(df.loc[idx, col])] for a label [idx] of the frame.
    The pages only pass labels obtained from [index_where]; a label beyond
    the frame leaves it as it is here. *)
Fixpoint loc_update {A : Type} (df : list A) (idx : nat) (f : A -> A) : list A :=
  match df, idx with
  | [], _ => []
  | r :: df', O => f r :: df'
  | r :: df', S i => r :: loc_update df' i f
  end.

(** [(inventory['OilType'] == oil) & (inventory['InventoryType'] == ty)] *)
Definition oil_and_type (oil : Oil) (ty : InventoryType) (r : Inv.row) : bool :=
  Oil_eqb (Inv.OilType r) oil && InventoryType_eqb (Inv.InventoryType r) ty.

(** [inventory[inventory['InventoryType'] == ty].set_index('OilType')] *)
Definition set_index_OilType (inventory : Inventory) (ty : InventoryType) : Inventory :=
  filter (fun r => InventoryType_eqb (Inv.InventoryType r) ty) inventory.

(** [indexed.loc[oil, 'QuantityMT']] used as a number.  With no row for [oil]
    pandas raises KeyError; with several rows it returns a Series, which the
    [:.2f] format of the option labels rejects.  Both are [None]. *)
Definition loc_QuantityMT (indexed : Inventory) (oil : Oil) : option Q :=
  match filter (fun r => Oil_eqb (Inv.OilType r) oil) indexed with
  | [r] => Some (Inv.QuantityMT r)
  | _ => None
  end.

(** The option labels of the select box: one per entry of [OIL_TYPES], each
    of which reads the stock of its oil.  [None] when a read fails, in which
    case the page stops before the form is handled. *)
Fixpoint oil_options_labels (indexed : Inventory) (oils : list Oil) : option (list (Oil * Q)) :=
  match oils with
  | [] => Some []
  | oil :: oils' =>
      match loc_QuantityMT indexed oil, oil_options_labels indexed oils' with
      | Some q, Some labels => Some ((oil, q) :: labels)
      | _, _ => None
      end
  end.

(** [inventory.loc[idx, 'QuantityMT'] += amount] *)
Definition add_QuantityMT (inventory : Inventory) (idx : nat) (amount : Q) : Inventory :=
  loc_update inventory idx (fun r => Inv.set_QuantityMT r (Inv.QuantityMT r + amount)).

(** [inventory.loc[idx, 'QuantityMT'] -= amount] *)
Definition sub_QuantityMT (inventory : Inventory) (idx : nat) (amount : Q) : Inventory :=
  loc_update inventory idx (fun r => Inv.set_QuantityMT r (Inv.QuantityMT r - amount)).

(** Python comparisons on numbers. *)
Definition Qgt_bool (a b : Q) : bool := negb (Qle_bool a b).

(** ** Inventory & Refining page *)

Module Refining.

Inductive message : Type :=
  | warning_enter_quantity
  | error_cannot_refine (quantity available : Q) (oil : Oil)
  | success_refined (quantity : Q) (oil : Oil).

(** The body of [with st.form(key="refining_form")] for a pressed submit
    button.  The result is the message shown and the inventory that is on
    disk afterwards; [None] is a raised exception (nothing is saved). *)
Definition refining_form (inventory_df : Inventory) (oil_to_refine : Oil)
    (quantity_to_refine : Q) : option (message * Inventory) :=
  let crude_inventory := set_index_OilType inventory_df Crude in
  match oil_options_labels crude_inventory OIL_TYPES with
  | None => None
  | Some _ =>
      match loc_QuantityMT crude_inventory oil_to_refine with
      | None => None
      | Some max_refine_qty =>
          if Qle_bool quantity_to_refine 0 then
            Some (warning_enter_quantity, inventory_df)
          else if Qgt_bool quantity_to_refine max_refine_qty then
            Some (error_cannot_refine quantity_to_refine max_refine_qty oil_to_refine,
                  inventory_df)
          else
            match index_where (oil_and_type oil_to_refine Crude) inventory_df,
                  index_where (oil_and_type oil_to_refine Refined) inventory_df with
            | crude_idx :: _, refined_idx :: _ =>
                let inventory_df := sub_QuantityMT inventory_df crude_idx quantity_to_refine in
                let inventory_df := add_QuantityMT inventory_df refined_idx quantity_to_refine in
                Some (success_refined quantity_to_refine oil_to_refine, inventory_df)
            | _, _ => None
            end
      end
  end.

End Refining.

(** ** Numbers: [round], [int], and the ids built from the clock *)

(** Python's [round(x)] on a float: the nearest integer, halves to even. *)
Definition py_round (x : Q) : Z :=
  let f := Qfloor x in
  match Qcompare (x - inject_Z f) (1 # 2) with
  | Lt => f
  | Gt => (f + 1)%Z
  | Eq => if Z.even f then f else (f + 1)%Z
  end.

(** [round(x, 2)]: the nearest multiple of 1/100, halves to even. *)
Definition py_round2 (x : Q) : Q := inject_Z (py_round (x * 100)) / 100.

(** [int(x)] on a float truncates towards zero. *)
Definition py_int (x : Q) : Z :=
  if Qle_bool 0 x then Qfloor x else Qceiling x.

(** [f"{n}"] for an integer. *)
Definition str_of_int (n : Z) : string := NilZero.string_of_int (Z.to_int n).

(** [not s] for a string. *)
Definition is_empty (s : string) : bool :=
  match s with
  | EmptyString => true
  | String _ _ => false
  end.

(** [get_simulated_oil_prices], the same in the three files that define it;
    [day_of_year] is [time.localtime().tm_yday]. *)
Definition current_prices (day_of_year : Z) (oil : Oil) : Z :=
  let base_price := (80000 + day_of_year * 15)%Z in
  match oil with
  | CrudeDegummedOil => base_price
  | PalmOil => (base_price - 5000)%Z
  | PalmDegummed => (base_price - 4500)%Z
  | CrudeSunflowerOil => (base_price + 3000)%Z
  end.

Definition previous_day_prices (day_of_year : Z) (oil : Oil) : Q :=
  inject_Z (current_prices day_of_year oil) * (99 # 100).

Definition get_simulated_oil_prices (day_of_year : Z) : (Oil -> Z) * (Oil -> Q) :=
  (current_prices day_of_year, previous_day_prices day_of_year).

(** Line 159 of app.py, line 101 of the sales page. *)
Definition price_per_litre (final_price : Z) (quantity_litres : Q) : Q :=
  if Qgt_bool quantity_litres 0
  then py_round2 (inject_Z final_price / quantity_litres)
  else 0.

(** The price before rounding, lines 150-156 of app.py and 93-99 of the
    sales page, named for the statements below. *)
Definition total_price (day_of_year : Z) (oil_type : Oil) (quantity_mt distance_km : Q) : Q :=
  let base_oil_price := inject_Z (current_prices day_of_year oil_type) * quantity_mt in
  let quantity_litres := (quantity_mt * 1000) / OIL_DENSITIES oil_type in
  let premium_cost := quantity_litres * 10 in
  let transport_cost := distance_km * TRANSPORT_COST_PER_KM in
  let sub_total := base_oil_price + premium_cost + transport_cost in
  let gst_amount := sub_total * IGST_RATE in
  sub_total + gst_amount.

(** The litres in one tonne of an oil: [1000 / density]. *)
Definition litres_per_tonne (oil : Oil) : Q := 1000 / OIL_DENSITIES oil.

(** ** Dashboard (app.py) *)

Module App.

Definition calculate_sale_price (day_of_year : Z) (oil_type : Oil)
    (quantity_mt distance_km : Q) : Z * Q :=
  if Qle_bool quantity_mt 0 || Qle_bool distance_km 0 then (0%Z, 0)
  else
    let (current_prices, _) := get_simulated_oil_prices day_of_year in
    let density := OIL_DENSITIES oil_type in
    let base_oil_price := inject_Z (current_prices oil_type) * quantity_mt in
    let quantity_litres := (quantity_mt * 1000) / density in
    let premium_cost := quantity_litres * 10 in
    let transport_cost := distance_km * TRANSPORT_COST_PER_KM in
    let sub_total := base_oil_price + premium_cost + transport_cost in
    let gst_amount := sub_total * IGST_RATE in
    let total_price := sub_total + gst_amount in
    let final_price := py_round total_price in
    let price_per_lt := price_per_litre final_price quantity_litres in
    (final_price, price_per_lt).

End App.

(** ** Purchase management page *)

Module Purchase.

Inductive message : Type :=
  | warning_required_fields
  | success_logged (shipment_id supplier : string)
  | success_added_to_crude (shipment_id : string) (quantity : Q) (oil : Oil)
  | info_changes_saved.

(** [f"SHP-{int(time.time())}"] *)
Definition shipment_id (now : Q) : string :=
  ("SHP-" ++ str_of_int (py_int now))%string.

(** The body of [new_purchase_form] for a pressed submit button; [now] is
    [time.time()].  Returns the message and the purchases on disk. *)
Definition new_purchase_form (now : Q) (purchases : Purchases)
    (supplier : string) (oil_type : Oil) (quantity_mt price_per_mt : Q)
    (purchase_date : string) : message * Purchases :=
  if is_empty supplier || Qle_bool quantity_mt 0 then
    (warning_required_fields, purchases)
  else
    let total_cost := quantity_mt * price_per_mt in
    let shipment_id := shipment_id now in
    let new_purchase :=
      Pur.mk shipment_id oil_type quantity_mt price_per_mt total_cost
             purchase_date InTransit supplier in
    (success_logged shipment_id supplier, purchases ++ [new_purchase]).

(** [st.data_editor] over the shipments: every column but [Status] is
    disabled and the rows are fixed, so an edit picks a new status for
    some of the rows. *)
Fixpoint data_editor (purchases : Purchases) (edits : list (option ShipmentStatus))
    : Purchases :=
  match purchases, edits with
  | row :: purchases', Some s :: edits' => Pur.set_Status row s :: data_editor purchases' edits'
  | row :: purchases', None :: edits' => row :: data_editor purchases' edits'
  | _, _ => purchases
  end.

(** [edited_df.equals(purchases)]: only the status column can differ. *)
Fixpoint equals (edited_df purchases : Purchases) : bool :=
  match edited_df, purchases with
  | [], [] => true
  | e :: edited', p :: purchases' =>
      ShipmentStatus_eqb (Pur.Status e) (Pur.Status p) && equals edited' purchases'
  | _, _ => false
  end.

(** One turn of the loop [for index, row in edited_df.iterrows()], with
    [original_status = purchases.at[index, 'Status']]; the messages shown
    and the in-memory inventory are threaded through. *)
Definition status_row (original_status : ShipmentStatus) (row : Pur.row)
    (acc : list message * Inventory) : list message * Inventory :=
  let (shown, inventory) := acc in
  let new_status := Pur.Status row in
  if negb (ShipmentStatus_eqb original_status new_status) then
    if ShipmentStatus_eqb new_status ReachedFactory
       && negb (ShipmentStatus_eqb original_status ReachedFactory) then
      let oil_type := Pur.OilType row in
      let quantity := Pur.QuantityMT row in
      match index_where (oil_and_type oil_type Crude) inventory with
      | idx :: _ =>
          (shown ++ [success_added_to_crude (Pur.ShipmentID row) quantity oil_type],
           add_QuantityMT inventory idx quantity)
      | [] => acc
      end
    else acc
  else acc.

Fixpoint status_loop (purchases edited_df : Purchases)
    (acc : list message * Inventory) : list message * Inventory :=
  match purchases, edited_df with
  | p :: purchases', row :: edited' =>
      status_loop purchases' edited' (status_row (Pur.Status p) row acc)
  | _, _ => acc
  end.

(** The status change handler (lines 167-189): the messages shown and the
    two tables on disk afterwards. *)
Definition status_change (purchases : Purchases) (inventory : Inventory)
    (edits : list (option ShipmentStatus))
    : list message * (Purchases * Inventory) :=
  let edited_df := data_editor purchases edits in
  if negb (equals edited_df purchases) then
    let (shown, inventory) := status_loop purchases edited_df ([], inventory) in
    (shown ++ [info_changes_saved], (edited_df, inventory))
  else ([], (purchases, inventory)).

(** The edit that selects [new_status] in row [index] and nothing else. *)
Definition select_status (index : nat) (new_status : ShipmentStatus)
    : list (option ShipmentStatus) :=
  repeat None index ++ [Some new_status].

End Purchase.

(** ** Sales management page *)

Module Sales.

Inductive message : Type :=
  | warning_fill_fields
  | warning_under_process (available : Q) (oil : Oil)
  | success_confirmed (order_id : string) (quantity : Q) (oil : Oil)
  | toast_status_updated.

Definition calculate_sale_price (day_of_year : Z) (oil_type : Oil)
    (quantity_mt distance_km : Q) : Z * Q :=
  if Qle_bool quantity_mt 0 then (0%Z, 0)
  else
    let (current_prices, _) := get_simulated_oil_prices day_of_year in
    let density := OIL_DENSITIES oil_type in
    let base_oil_price := inject_Z (current_prices oil_type) * quantity_mt in
    let quantity_litres := (quantity_mt * 1000) / density in
    let premium_cost := quantity_litres * 10 in
    let transport_cost := distance_km * TRANSPORT_COST_PER_KM in
    let sub_total := base_oil_price + premium_cost + transport_cost in
    let gst_amount := sub_total * IGST_RATE in
    let total_price := sub_total + gst_amount in
    let final_price := py_round total_price in
    let price_per_lt := price_per_litre final_price quantity_litres in
    (final_price, price_per_lt).

(** [f"ORD-{int(time.time())}"] *)
Definition order_id (now : Q) : string :=
  ("ORD-" ++ str_of_int (py_int now))%string.

(** The body of [new_sale_form] for a pressed submit button.  The result
    is the message shown and the two tables on disk afterwards; [None] is
    a raised exception. *)
Definition new_sale_form (day_of_year : Z) (now : Q)
    (sales : SalesTable) (inventory : Inventory)
    (vendor_name destination : string) (distance_km : Z) (oil_type : Oil)
    (quantity_mt : Q) (order_date : string)
    : option (message * (SalesTable * Inventory)) :=
  let refined_inventory := set_index_OilType inventory Refined in
  match oil_options_labels refined_inventory OIL_TYPES with
  | None => None
  | Some _ =>
      let (final_price, price_per_lt) :=
        calculate_sale_price day_of_year oil_type quantity_mt (inject_Z distance_km) in
      if is_empty vendor_name || is_empty destination
         || Qle_bool quantity_mt 0 || (distance_km <=? 0)%Z then
        Some (warning_fill_fields, (sales, inventory))
      else
        match loc_QuantityMT refined_inventory oil_type with
        | None => None
        | Some available_stock =>
            let order_id := order_id now in
            let new_sale status :=
              Sal.mk order_id vendor_name destination distance_km oil_type
                     quantity_mt final_price order_date status in
            if Qgt_bool quantity_mt available_stock then
              Some (warning_under_process available_stock oil_type,
                    (sales ++ [new_sale UnderProcess], inventory))
            else
              match index_where (oil_and_type oil_type Refined) inventory with
              | refined_idx :: _ =>
                  let inventory := sub_QuantityMT inventory refined_idx quantity_mt in
                  Some (success_confirmed order_id quantity_mt oil_type,
                        (sales ++ [new_sale Confirmed], inventory))
              | [] => None
              end
        end
  end.

(** [st.data_editor] over the orders: only [Status] can be edited. *)
Fixpoint data_editor (sales : SalesTable) (edits : list (option OrderStatus))
    : SalesTable :=
  match sales, edits with
  | row :: sales', Some s :: edits' => Sal.set_Status row s :: data_editor sales' edits'
  | row :: sales', None :: edits' => row :: data_editor sales' edits'
  | _, _ => sales
  end.

End Sales.

(** ** The ledger as a whole: the three files and the operations on them *)

Record State : Type := mkState {
  purchases : Purchases;
  sales : SalesTable;
  inventory : Inventory
}.

Inductive Op : Type :=
  | LogPurchase (now : Q) (supplier : string) (oil_type : Oil)
      (quantity_mt price_per_mt : Q) (purchase_date : string)
  | EditShipments (edits : list (option ShipmentStatus))
  | Refine (oil_to_refine : Oil) (quantity_to_refine : Q)
  | BookOrder (day_of_year : Z) (now : Q) (vendor_name destination : string)
      (distance_km : Z) (oil_type : Oil) (quantity_mt : Q) (order_date : string)
  | EditOrders (edits : list (option OrderStatus)).

(** One page interaction; a page that raises leaves the files as they were. *)
Definition step (st : State) (op : Op) : State :=
  match op with
  | LogPurchase now supplier oil_type quantity_mt price_per_mt purchase_date =>
      let (_, purchases') :=
        Purchase.new_purchase_form now (purchases st) supplier oil_type
          quantity_mt price_per_mt purchase_date in
      mkState purchases' (sales st) (inventory st)
  | EditShipments edits =>
      let '(_, (purchases', inventory')) :=
        Purchase.status_change (purchases st) (inventory st) edits in
      mkState purchases' (sales st) inventory'
  | Refine oil_to_refine quantity_to_refine =>
      match Refining.refining_form (inventory st) oil_to_refine quantity_to_refine with
      | Some (_, inventory') => mkState (purchases st) (sales st) inventory'
      | None => st
      end
  | BookOrder day_of_year now vendor_name destination distance_km oil_type
      quantity_mt order_date =>
      match Sales.new_sale_form day_of_year now (sales st) (inventory st)
              vendor_name destination distance_km oil_type quantity_mt order_date with
      | Some (_, (sales', inventory')) => mkState (purchases st) sales' inventory'
      | None => st
      end
  | EditOrders edits =>
      mkState (purchases st) (Sales.data_editor (sales st) edits) (inventory st)
  end.

Definition run (st : State) (ops : list Op) : State := fold_left step ops st.

(** Every (grade, pool) quantity is non-negative. *)
Definition quantities_nonneg (inventory : Inventory) : Prop :=
  Forall (fun r => 0 <= Inv.QuantityMT r) inventory.

(** Every shipment on file has a non-negative quantity, as every shipment
    logged through the purchase form has. *)
Definition shipments_nonneg (purchases : Purchases) : Prop :=
  Forall (fun p => 0 <= Pur.QuantityMT p) purchases.

(** The stock of [oil] in pool [ty] as the pages read it. *)
Definition snapshot (inventory : Inventory) (oil : Oil) (ty : InventoryType) : option Q :=
  loc_QuantityMT (set_index_OilType inventory ty) oil.

(** ** Status transitions of one purchase order *)

(** [updateStatus(order, new_status)]: the status change handler of the
    purchase page run on the edit that selects [new_status] for the shipment
    in row [index].  Returns the messages shown and the files afterwards. *)
Definition update_status (st : State) (index : nat) (new_status : ShipmentStatus)
    : list Purchase.message * State :=
  let '(shown, (purchases', inventory')) :=
    Purchase.status_change (purchases st) (inventory st)
      (Purchase.select_status index new_status) in
  (shown, mkState purchases' (sales st) inventory').


(** The credits of Crude that fired: each one shows its success message. *)
Definition is_credit (m : Purchase.message) : bool :=
  match m with
  | Purchase.success_added_to_crude _ _ _ => true
  | _ => false
  end.

Definition credits (shown : list Purchase.message) : nat :=
  List.length (filter is_credit shown).



(** ** Sample data

    An inventory with one row per (grade, pool), used to run the handlers. *)
Definition stock_example : Inventory :=
  [Inv.mk CrudeDegummedOil Crude 10; Inv.mk CrudeDegummedOil Refined 2;
   Inv.mk PalmOil Crude 4; Inv.mk PalmOil Refined 0;
   Inv.mk PalmDegummed Crude 0; Inv.mk PalmDegummed Refined 1;
   Inv.mk CrudeSunflowerOil Crude 6; Inv.mk CrudeSunflowerOil Refined 3].

(** One shipment of 5 MT in transit, no sales yet. *)
Definition shipment_example : Pur.row :=
  Pur.mk "SHP-1700000000" CrudeDegummedOil 5 79000 395000 "2024-01-15" InTransit
    "Global Oil Traders".

Definition ledger_example : State := mkState [shipment_example] [] stock_example.

(** The same shipment over an inventory file without the rows of its grade. *)
Definition ledger_without_rows : State :=
  mkState (purchases ledger_example) []
    [Inv.mk PalmOil Crude 4; Inv.mk PalmOil Refined 0].

(** A day at the pages: log a purchase, mark it and the earlier shipment as
    arrived, refine, book two sales (one more than the stock allows). *)
Definition day_example : list Op :=
  [LogPurchase 1700000100 "Global Oil Traders" PalmOil 20 74000 "2024-01-16";
   EditShipments [Some ReachedFactory; Some ReachedFactory];
   Refine PalmOil 24;
   BookOrder 16 1700000200 "National Retailers" "Mumbai Warehouse" 100 PalmOil 24
     "2024-01-16";
   BookOrder 16 1700000300 "National Retailers" "Mumbai Warehouse" 100 PalmOil 1
     "2024-01-16"].

(** Two purchases logged, and two sales booked, within the same second of
    the clock (at 1700000000.2 s and 1700000000.7 s). *)
Definition purchases_same_second : list Op :=
  [LogPurchase (17000000002 # 10) "Global Oil Traders" PalmOil 20 74000 "2024-01-16";
   LogPurchase (17000000007 # 10) "Coastal Refiners" CrudeDegummedOil 5 79000 "2024-01-16"].

Definition bookings_same_second : list Op :=
  [BookOrder 16 (17000000002 # 10) "National Retailers" "Mumbai Warehouse" 100
     CrudeSunflowerOil 1 "2024-01-16";
   BookOrder 16 (17000000007 # 10) "City Traders" "Pune Depot" 50
     CrudeDegummedOil 1 "2024-01-16"].

(** ** Dashboard: the files at start-up and the figures shown *)

Module Dashboard.

(** [pd.DataFrame({"OilType": ..., "InventoryType": ..., "QuantityMT": ...})]:
    a frame from three columns (of the same length in the source). *)
Fixpoint inventory_frame (oils : list Oil) (types : list InventoryType)
    (quantities : list Q) : Inventory :=
  match oils, types, quantities with
  | oil :: oils', ty :: types', q :: quantities' =>
      Inv.mk oil ty q :: inventory_frame oils' types' quantities'
  | _, _, _ => []
  end.

(** The inventory that [initialize_data_files] writes when there is none:
    [[oil for oil in OIL_TYPES for _ in (0, 1)]],
    [["Crude", "Refined"] * len(OIL_TYPES)] and
    [[0.0] * len(OIL_TYPES) * 2]. *)
Definition initial_inventory : Inventory :=
  inventory_frame
    (flat_map (fun oil => map (fun _ => oil) [0%Z; 1%Z]) OIL_TYPES)
    (List.concat (repeat [Crude; Refined] (List.length OIL_TYPES)))
    (repeat 0 (List.length OIL_TYPES * 2)).

(** [initialize_data_files] followed by [load_data]: a file that exists is
    left alone ([Some]), a missing one is created empty, the inventory with
    its rows at zero. *)
Definition initialize_data_files (purchases_file : option Purchases)
    (sales_file : option SalesTable) (inventory_file : option Inventory) : State :=
  mkState
    (match purchases_file with Some df => df | None => [] end)
    (match sales_file with Some df => df | None => [] end)
    (match inventory_file with Some df => df | None => initial_inventory end).

(** [inventory[inventory['InventoryType'] == ty]['QuantityMT'].sum()]; over
    exact rationals the order of the additions does not matter. *)
Definition total_stock (inventory : Inventory) (ty : InventoryType) : Q :=
  fold_right Qplus 0
    (map Inv.QuantityMT
       (filter (fun r => InventoryType_eqb (Inv.InventoryType r) ty) inventory)).

(** [purchases[purchases['Status'].isin(['In Transit', 'At Port'])].shape[0]] *)
Definition active_shipments (purchases : Purchases) : nat :=
  List.length
    (filter (fun p => existsb (ShipmentStatus_eqb (Pur.Status p)) [InTransit; AtPort])
       purchases).

Definition OrderStatus_eqb (a b : OrderStatus) : bool :=
  match a, b with
  | UnderProcess, UnderProcess | Confirmed, Confirmed
  | Dispatched, Dispatched | Fulfilled, Fulfilled => true
  | _, _ => false
  end.

(** [sales[sales['Status'].isin(['Under Process', 'Confirmed'])].shape[0]] *)
Definition pending_sales (sales : SalesTable) : nat :=
  List.length
    (filter (fun o => existsb (OrderStatus_eqb (Sal.Status o)) [UnderProcess; Confirmed])
       sales).

(** The price ticker: [delta = current_prices[oil] - prev_prices[oil]] and
    [delta_color = "normal" if delta < 0 else "inverse"]. *)
Inductive delta_color : Type := normal | inverse.

Definition delta (day_of_year : Z) (oil : Oil) : Q :=
  let (current_prices, prev_prices) := get_simulated_oil_prices day_of_year in
  inject_Z (current_prices oil) - prev_prices oil.

Definition ticker_color (day_of_year : Z) (oil : Oil) : delta_color :=
  if Qgt_bool 0 (delta day_of_year oil) then normal else inverse.

End Dashboard.

(** ** Notions used in the statements *)

(** The (grade, pool) keys of the inventory rows, in order. *)
Definition inventory_keys (inventory : Inventory) : list (Oil * InventoryType) :=
  map (fun r => (Inv.OilType r, Inv.InventoryType r)) inventory.

(** The rows of the edited shipments that an edit newly sets to Reached
    Factory: the test of lines 173-175 of the purchase page. *)
Fixpoint newly_arrived (purchases edited_df : Purchases) : Purchases :=
  match purchases, edited_df with
  | p :: purchases', row :: edited' =>
      let rest := newly_arrived purchases' edited' in
      if ShipmentStatus_eqb (Pur.Status row) ReachedFactory
         && negb (ShipmentStatus_eqb (Pur.Status p) ReachedFactory)
      then row :: rest else rest
  | _, _ => []
  end.



(** ** The arithmetic of the code: binary64

    The quantities and prices of the source are Python floats (IEEE 754
    binary64, round to nearest, ties to even), which the kernel's primitive
    floats are.  The refining form and the price calculation are given here
    once more over them, operation by operation as the source writes them,
    for the statements whose truth depends on the rounding of each
    operation: the embedding above, over exact rationals, mirrors single
    updates and branch decisions but not the last bit of a sum. *)

Set Warnings "-inexact-float".

Module Float64.

(** The value of a finite float; [None] for an infinity or a NaN. *)
Definition F2Q (x : float) : option Q :=
  match Prim2SF x with
  | S754_zero _ => Some 0
  | S754_finite s m e =>
      Some ((if s then - inject_Z (Zpos m) else inject_Z (Zpos m)) * Qpower 2 e)
  | S754_infinity _ | S754_nan => None
  end.

(** [float(n)] for an integer, as [int * float] and [int / float] convert
    their integer operand: the nearest float, ties to even. *)
Definition Z2F (n : Z) : float := SF2Prim (binary_normalize prec emax n 0 false).

(** The float nearest to [n / d] (what [strtod] returns for a decimal). *)
Definition nearest_float (n : Z) (d : positive) : float :=
  match n with
  | Z0 => 0%float
  | Zpos p => SF2Prim (SFdiv prec emax (S754_finite false p 0) (S754_finite false d 0))
  | Zneg p => SF2Prim (SFdiv prec emax (S754_finite true p 0) (S754_finite false d 0))
  end.

(** [round(x, 2)] on a float: the value of [x] is rounded to the nearest
    hundredth, halves to even, and the float nearest to that decimal is
    returned (a zero keeps the sign of [x]); a NaN or an infinity is
    returned as it is. *)
Definition py_round2 (x : float) : float :=
  match F2Q x with
  | Some v =>
      match py_round (v * 100) with
      | Z0 => (x * 0)%float
      | cents => nearest_float cents 100
      end
  | None => x
  end.

(** [round(x)] on a float: the integer nearest to its value, halves to
    even; it raises on a NaN (ValueError) and on an infinity
    (OverflowError), which is [None]. *)
Definition py_round (x : float) : option Z :=
  match F2Q x with
  | Some v => Some (py_round v)
  | None => None
  end.

Definition OIL_DENSITIES (oil : Oil) : float :=
  match oil with
  | CrudeDegummedOil => 0.92
  | PalmOil => 0.915
  | PalmDegummed => 0.918
  | CrudeSunflowerOil => 0.922
  end%float.

Definition TRANSPORT_COST_PER_KM : float := 12%float.
Definition IGST_RATE : float := 0.05%float.

(** Line 159 of app.py. *)
Definition price_per_litre (final_price : Z) (quantity_litres : float) : float :=
  if (0 <? quantity_litres)%float
  then py_round2 (Z2F final_price / quantity_litres)%float
  else 0%float.

(** Lines 150-156 of app.py: the price before rounding. *)
Definition total_price (day_of_year : Z) (oil_type : Oil) (quantity_mt distance_km : float)
    : float :=
  let base_oil_price := (Z2F (current_prices day_of_year oil_type) * quantity_mt)%float in
  let quantity_litres := ((quantity_mt * 1000) / OIL_DENSITIES oil_type)%float in
  let premium_cost := (quantity_litres * 10)%float in
  let transport_cost := (distance_km * TRANSPORT_COST_PER_KM)%float in
  let sub_total := (base_oil_price + premium_cost + transport_cost)%float in
  let gst_amount := (sub_total * IGST_RATE)%float in
  (sub_total + gst_amount)%float.

(** [calculate_sale_price] of app.py; [None] when [round] raises.  The
    arguments are the floats of the numbers passed (an integer distance is
    converted as the first float operation on it would); the integers that
    the source mixes in ([1000], [10], [12], the price) are converted as
    Python converts them, and the [0, 0] of the guard is [(0, 0.0)]. *)
Definition calculate_sale_price (day_of_year : Z) (oil_type : Oil)
    (quantity_mt distance_km : float) : option (Z * float) :=
  if (quantity_mt <=? 0)%float || (distance_km <=? 0)%float then Some (0%Z, 0%float)
  else
    let (current_prices, _) := get_simulated_oil_prices day_of_year in
    let density := OIL_DENSITIES oil_type in
    let base_oil_price := (Z2F (current_prices oil_type) * quantity_mt)%float in
    let quantity_litres := ((quantity_mt * 1000) / density)%float in
    let premium_cost := (quantity_litres * 10)%float in
    let transport_cost := (distance_km * TRANSPORT_COST_PER_KM)%float in
    let sub_total := (base_oil_price + premium_cost + transport_cost)%float in
    let gst_amount := (sub_total * IGST_RATE)%float in
    let total_price := (sub_total + gst_amount)%float in
    match py_round total_price with
    | None => None
    | Some final_price =>
        let price_per_lt := price_per_litre final_price quantity_litres in
        Some (final_price, price_per_lt)
    end.

(** The total as the specification words it:
    [round((price * q + ((q * 1000) / density) * 10 + d * 12) * (1 + 0.05))],
    in the same arithmetic. *)
Definition spec_total (day_of_year : Z) (oil_type : Oil) (quantity_mt distance_km : float)
    : option Z :=
  py_round
    ((Z2F (current_prices day_of_year oil_type) * quantity_mt
      + ((quantity_mt * 1000) / OIL_DENSITIES oil_type) * 10
      + distance_km * 12) * (1 + 0.05))%float.

(** The inventory with float quantities, and the refining form over it
    (lines 78-123 of the refining page). *)
Module Inv.
Record row : Type := mk {
  OilType : Oil;
  InventoryType : InventoryType;
  QuantityMT : float
}.

Definition set_QuantityMT (r : row) (q : float) : row :=
  mk (OilType r) (InventoryType r) q.
End Inv.

Definition Inventory : Type := list Inv.row.

Definition oil_and_type (oil : Oil) (ty : InventoryType) (r : Inv.row) : bool :=
  Oil_eqb (Inv.OilType r) oil && InventoryType_eqb (Inv.InventoryType r) ty.

Definition set_index_OilType (inventory : Inventory) (ty : InventoryType) : Inventory :=
  filter (fun r => InventoryType_eqb (Inv.InventoryType r) ty) inventory.

Definition loc_QuantityMT (indexed : Inventory) (oil : Oil) : option float :=
  match filter (fun r => Oil_eqb (Inv.OilType r) oil) indexed with
  | [r] => Some (Inv.QuantityMT r)
  | _ => None
  end.

Fixpoint oil_options_labels (indexed : Inventory) (oils : list Oil)
    : option (list (Oil * float)) :=
  match oils with
  | [] => Some []
  | oil :: oils' =>
      match loc_QuantityMT indexed oil, oil_options_labels indexed oils' with
      | Some q, Some labels => Some ((oil, q) :: labels)
      | _, _ => None
      end
  end.

Definition add_QuantityMT (inventory : Inventory) (idx : nat) (amount : float) : Inventory :=
  loc_update inventory idx
    (fun r => Inv.set_QuantityMT r (Inv.QuantityMT r + amount)%float).

Definition sub_QuantityMT (inventory : Inventory) (idx : nat) (amount : float) : Inventory :=
  loc_update inventory idx
    (fun r => Inv.set_QuantityMT r (Inv.QuantityMT r - amount)%float).

Definition snapshot (inventory : Inventory) (oil : Oil) (ty : InventoryType) : option float :=
  loc_QuantityMT (set_index_OilType inventory ty) oil.

Inductive message : Type :=
  | warning_enter_quantity
  | error_cannot_refine (quantity available : float) (oil : Oil)
  | success_refined (quantity : float) (oil : Oil).

Definition refining_form (inventory_df : Inventory) (oil_to_refine : Oil)
    (quantity_to_refine : float) : option (message * Inventory) :=
  let crude_inventory := set_index_OilType inventory_df Crude in
  match oil_options_labels crude_inventory OIL_TYPES with
  | None => None
  | Some _ =>
      match loc_QuantityMT crude_inventory oil_to_refine with
      | None => None
      | Some max_refine_qty =>
          if (quantity_to_refine <=? 0)%float then
            Some (warning_enter_quantity, inventory_df)
          else if (max_refine_qty <? quantity_to_refine)%float then
            Some (error_cannot_refine quantity_to_refine max_refine_qty oil_to_refine,
                  inventory_df)
          else
            match index_where (oil_and_type oil_to_refine Crude) inventory_df,
                  index_where (oil_and_type oil_to_refine Refined) inventory_df with
            | crude_idx :: _, refined_idx :: _ =>
                let inventory_df := sub_QuantityMT inventory_df crude_idx quantity_to_refine in
                let inventory_df := add_QuantityMT inventory_df refined_idx quantity_to_refine in
                Some (success_refined quantity_to_refine oil_to_refine, inventory_df)
            | _, _ => None
            end
      end
  end.

(** Half a tonne of crude and a fifth of refined Crude Degummed Oil. *)
Definition stock_example : Inventory :=
  [Inv.mk CrudeDegummedOil Crude 0.5; Inv.mk CrudeDegummedOil Refined 0.2;
   Inv.mk PalmOil Crude 0; Inv.mk PalmOil Refined 0;
   Inv.mk PalmDegummed Crude 0; Inv.mk PalmDegummed Refined 0;
   Inv.mk CrudeSunflowerOil Crude 0; Inv.mk CrudeSunflowerOil Refined 0]%float.

End Float64.

(** * Properties *)

(** ** Facts about the data-frame operations *)

Section DataFrame.

Context {A : Type}.
Variable mask : A -> bool.
Variable f : A -> A.

Lemma index_where_first (df : list A) (idx : nat) (rest : list nat) :
  index_where mask df = idx :: rest ->
  exists r t, filter mask df = r :: t /\ nth_error df idx = Some r /\ mask r = true.
Proof.
  revert idx rest.
  induction df as [|a df IH]; intros idx rest H; simpl in H.
  - discriminate.
  - simpl. destruct (mask a) eqn:Ha.
    + inversion H; subst. exists a, (filter mask df). auto.
    + destruct (index_where mask df) as [|i is'] eqn:E; simpl in H; [discriminate|].
      inversion H; subst.
      destruct (IH i is' eq_refl) as (r & t & Hf & Hn & Hm).
      exists r, t. auto.
Qed.

Lemma filter_index_where (df : list A) (r : A) (t : list A) :
  filter mask df = r :: t ->
  exists idx rest, index_where mask df = idx :: rest.
Proof.
  induction df as [|a df IH]; simpl; intros H.
  - discriminate.
  - destruct (mask a).
    + eauto.
    + destruct (IH H) as (i & rest & E). rewrite E. simpl. eauto.
Qed.


Hypothesis mask_f : forall r, mask (f r) = mask r.


Lemma filter_loc_update_miss (df : list A) (idx : nat) :
  (forall r, nth_error df idx = Some r -> mask r = false) ->
  filter mask (loc_update df idx f) = filter mask df.
Proof.
  revert idx.
  induction df as [|a df IH]; intros idx H; [reflexivity|].
  destruct idx as [|i]; simpl.
  - rewrite mask_f, (H a eq_refl). reflexivity.
  - rewrite (IH i); [reflexivity|]. intros r Hr. apply H. exact Hr.
Qed.

Lemma index_where_loc_update (df : list A) (idx : nat) :
  index_where mask (loc_update df idx f) = index_where mask df.
Proof.
  revert idx.
  induction df as [|a df IH]; intros idx; [reflexivity|].
  destruct idx as [|i]; simpl.
  - rewrite mask_f. reflexivity.
  - rewrite IH. reflexivity.
Qed.

End DataFrame.


Lemma Forall_loc_update {A : Type} (P : A -> Prop) (f : A -> A) (df : list A) (idx : nat) :
  Forall P df ->
  (forall r, nth_error df idx = Some r -> P r -> P (f r)) ->
  Forall P (loc_update df idx f).
Proof.
  intros HF. revert idx.
  induction HF as [|a df Ha HF IH]; intros idx H; [constructor|].
  destruct idx as [|i]; simpl.
  - constructor; [apply H; auto|exact HF].
  - constructor; [exact Ha|]. apply IH. intros r Hr. apply H. exact Hr.
Qed.

(** ** Reading the stock *)


Lemma filter_set_index (inventory : Inventory) (oil : Oil) (ty : InventoryType) :
  filter (fun r => Oil_eqb (Inv.OilType r) oil) (set_index_OilType inventory ty)
  = filter (oil_and_type oil ty) inventory.
Proof.
  unfold set_index_OilType, oil_and_type.
  induction inventory as [|a l IH]; simpl; [reflexivity|].
  destruct (InventoryType_eqb (Inv.InventoryType a) ty); simpl.
  - rewrite IH, andb_true_r. reflexivity.
  - rewrite IH, andb_false_r. reflexivity.
Qed.

Lemma snapshot_filter (inventory : Inventory) (oil : Oil) (ty : InventoryType) :
  snapshot inventory oil ty =
    match filter (oil_and_type oil ty) inventory with
    | [r] => Some (Inv.QuantityMT r)
    | _ => None
    end.
Proof. unfold snapshot, loc_QuantityMT. rewrite filter_set_index. reflexivity. Qed.

Lemma Oil_eqb_eq (a b : Oil) : Oil_eqb a b = true <-> a = b.
Proof. destruct a, b; simpl; split; intros H; try reflexivity; discriminate. Qed.

Lemma InventoryType_eqb_eq (a b : InventoryType) : InventoryType_eqb a b = true <-> a = b.
Proof. destruct a, b; simpl; split; intros H; try reflexivity; discriminate. Qed.

Lemma oil_and_type_true (oil : Oil) (ty : InventoryType) (r : Inv.row) :
  oil_and_type oil ty r = true <-> Inv.OilType r = oil /\ Inv.InventoryType r = ty.
Proof.
  unfold oil_and_type. rewrite andb_true_iff, Oil_eqb_eq, InventoryType_eqb_eq. tauto.
Qed.


(** A stock that can be read sits in the first row matching its key, and
    changing the quantity of that row changes the stock read, and no other. *)
Lemma snapshot_index (inventory : Inventory) (oil : Oil) (ty : InventoryType) (q : Q) :
  snapshot inventory oil ty = Some q ->
  exists idx rest r,
    index_where (oil_and_type oil ty) inventory = idx :: rest
    /\ nth_error inventory idx = Some r
    /\ oil_and_type oil ty r = true
    /\ Inv.QuantityMT r = q.
Proof.
  rewrite snapshot_filter. intros H.
  destruct (filter (oil_and_type oil ty) inventory) as [|r [|r' t]] eqn:E; try discriminate.
  inversion H; subst.
  destruct (filter_index_where _ _ _ _ E) as (idx & rest & Hi).
  destruct (index_where_first _ _ _ _ Hi) as (r0 & t & Hf & Hn & Hm).
  rewrite E in Hf. inversion Hf; subst.
  exists idx, rest, r0. auto.
Qed.




Lemma Qle_bool_false (a b : Q) : Qle_bool a b = false <-> b < a.
Proof.
  split; intros H.
  - apply Qnot_le_lt. intros Hle. apply Qle_bool_iff in Hle. congruence.
  - destruct (Qle_bool a b) eqn:E; [|reflexivity].
    apply Qle_bool_iff in E. exfalso. apply (Qlt_not_le _ _ H E).
Qed.

Lemma Qgt_bool_true (a b : Q) : Qgt_bool a b = true <-> b < a.
Proof. unfold Qgt_bool. rewrite negb_true_iff. apply Qle_bool_false. Qed.

Lemma Qgt_bool_false (a b : Q) : Qgt_bool a b = false <-> a <= b.
Proof. unfold Qgt_bool. rewrite negb_false_iff. apply Qle_bool_iff. Qed.

(** ** Refining *)





(** ** Booking a sale *)

Lemma is_empty_false (s : string) : s <> EmptyString -> is_empty s = false.
Proof. destruct s; [congruence|reflexivity]. Qed.



(** ** Non-negative quantities *)

Lemma add_QuantityMT_nonneg (inventory : Inventory) (idx : nat) (amount : Q) :
  quantities_nonneg inventory -> 0 <= amount ->
  quantities_nonneg (add_QuantityMT inventory idx amount).
Proof.
  intros H Ha. apply Forall_loc_update; [exact H|].
  intros r _ Hr. simpl. lra.
Qed.

Lemma sub_QuantityMT_nonneg (inventory : Inventory) (oil : Oil) (ty : InventoryType)
    (idx : nat) (rest : list nat) (available amount : Q) :
  quantities_nonneg inventory ->
  snapshot inventory oil ty = Some available ->
  index_where (oil_and_type oil ty) inventory = idx :: rest ->
  amount <= available ->
  quantities_nonneg (sub_QuantityMT inventory idx amount).
Proof.
  intros H Hs Hi Hle. apply Forall_loc_update; [exact H|].
  intros r Hr _. simpl.
  destruct (snapshot_index _ _ _ _ Hs) as (i & rest' & r' & Hi' & Hn & _ & Hq).
  rewrite Hi in Hi'. inversion Hi'; subst i rest'.
  rewrite Hn in Hr. inversion Hr; subst r'. rewrite Hq. lra.
Qed.

Lemma refining_form_nonneg (inventory inventory' : Inventory) (oil : Oil) (x : Q)
    (m : Refining.message) :
  quantities_nonneg inventory ->
  Refining.refining_form inventory oil x = Some (m, inventory') ->
  quantities_nonneg inventory'.
Proof.
  intros H. unfold Refining.refining_form.
  destruct (oil_options_labels _ _); [|discriminate].
  fold (snapshot inventory oil Crude).
  destruct (snapshot inventory oil Crude) as [c|] eqn:Hc; [|discriminate].
  destruct (Qle_bool x 0) eqn:E1; [intros E; inversion E; subst; exact H|].
  destruct (Qgt_bool x c) eqn:E2; [intros E; inversion E; subst; exact H|].
  destruct (index_where (oil_and_type oil Crude) inventory) as [|ci crest] eqn:Hci;
    [discriminate|].
  destruct (index_where (oil_and_type oil Refined) inventory) as [|ri rrest];
    [discriminate|].
  intros E; inversion E; subst.
  apply Qle_bool_false in E1. apply Qgt_bool_false in E2.
  apply add_QuantityMT_nonneg; [|lra].
  apply (sub_QuantityMT_nonneg inventory oil Crude ci crest c x H Hc Hci E2).
Qed.

Lemma new_sale_form_nonneg (day_of_year : Z) (now : Q) (sales sales' : SalesTable)
    (inventory inventory' : Inventory) (vendor_name destination : string)
    (distance_km : Z) (oil : Oil) (q : Q) (order_date : string)
    (m : Sales.message) :
  quantities_nonneg inventory ->
  Sales.new_sale_form day_of_year now sales inventory vendor_name destination
    distance_km oil q order_date = Some (m, (sales', inventory')) ->
  quantities_nonneg inventory'.
Proof.
  intros H. unfold Sales.new_sale_form.
  destruct (oil_options_labels _ _); [|discriminate].
  destruct (Sales.calculate_sale_price _ _ _ _) as [final_price price_per_lt].
  destruct (_ || _ || _ || _); [intros E; inversion E; subst; exact H|].
  fold (snapshot inventory oil Refined).
  destruct (snapshot inventory oil Refined) as [a|] eqn:Ha; [|discriminate].
  destruct (Qgt_bool q a) eqn:E2; [intros E; inversion E; subst; exact H|].
  destruct (index_where (oil_and_type oil Refined) inventory) as [|ri rrest] eqn:Hri;
    [discriminate|].
  intros E; inversion E; subst.
  apply Qgt_bool_false in E2.
  apply (sub_QuantityMT_nonneg inventory oil Refined ri rrest a q H Ha Hri E2).
Qed.

Lemma new_purchase_form_nonneg (now : Q) (purchases : Purchases) (supplier : string)
    (oil : Oil) (quantity_mt price_per_mt : Q) (purchase_date : string) :
  shipments_nonneg purchases ->
  shipments_nonneg
    (snd (Purchase.new_purchase_form now purchases supplier oil quantity_mt
            price_per_mt purchase_date)).
Proof.
  intros H. unfold Purchase.new_purchase_form.
  destruct (is_empty supplier); [exact H|]. simpl.
  destruct (Qle_bool quantity_mt 0) eqn:E; [exact H|]. simpl.
  apply Qle_bool_false in E.
  apply Forall_app. split; [exact H|].
  constructor; [simpl; lra|constructor].
Qed.

Lemma data_editor_nonneg (purchases : Purchases) (edits : list (option ShipmentStatus)) :
  shipments_nonneg purchases ->
  shipments_nonneg (Purchase.data_editor purchases edits).
Proof.
  intros H. revert edits.
  induction H as [|p purchases Hp H IH]; intros edits.
  - destruct edits as [|[s|] edits]; constructor.
  - destruct edits as [|[s|] edits]; simpl.
    + constructor; assumption.
    + constructor; [exact Hp|apply IH].
    + constructor; [exact Hp|apply IH].
Qed.

Lemma status_row_nonneg (original_status : ShipmentStatus) (row : Pur.row)
    (acc : list Purchase.message * Inventory) :
  0 <= Pur.QuantityMT row ->
  quantities_nonneg (snd acc) ->
  quantities_nonneg (snd (Purchase.status_row original_status row acc)).
Proof.
  intros Hq H. destruct acc as [shown inventory]. unfold Purchase.status_row.
  destruct (negb _); [|exact H].
  destruct (_ && _); [|exact H].
  destruct (index_where _ inventory) as [|idx rest]; [exact H|].
  simpl. apply add_QuantityMT_nonneg; assumption.
Qed.

Lemma status_loop_nonneg (purchases edited_df : Purchases)
    (acc : list Purchase.message * Inventory) :
  shipments_nonneg edited_df ->
  quantities_nonneg (snd acc) ->
  quantities_nonneg (snd (Purchase.status_loop purchases edited_df acc)).
Proof.
  revert edited_df acc.
  induction purchases as [|p purchases IH]; intros edited_df acc He H; [exact H|].
  destruct edited_df as [|row edited_df]; [exact H|].
  simpl. inversion He; subst.
  apply IH; [assumption|]. apply status_row_nonneg; assumption.
Qed.

Lemma status_change_nonneg (purchases : Purchases) (inventory : Inventory)
    (edits : list (option ShipmentStatus)) :
  shipments_nonneg purchases -> quantities_nonneg inventory ->
  shipments_nonneg (fst (snd (Purchase.status_change purchases inventory edits)))
  /\ quantities_nonneg (snd (snd (Purchase.status_change purchases inventory edits))).
Proof.
  intros Hp Hi. unfold Purchase.status_change.
  destruct (negb _); [|split; assumption].
  pose proof (status_loop_nonneg purchases (Purchase.data_editor purchases edits)
                ([], inventory) (data_editor_nonneg _ edits Hp) Hi) as Hl.
  destruct (Purchase.status_loop _ _ _) as [shown inventory'].
  simpl in *. split; [apply data_editor_nonneg; exact Hp|exact Hl].
Qed.

(** Every page interaction keeps the quantities on file non-negative. *)
Lemma step_nonneg (st : State) (op : Op) :
  quantities_nonneg (inventory st) /\ shipments_nonneg (purchases st) ->
  quantities_nonneg (inventory (step st op)) /\ shipments_nonneg (purchases (step st op)).
Proof.
  intros [Hi Hp]. destruct op; simpl.
  - pose proof (new_purchase_form_nonneg now (purchases st) supplier oil_type
                  quantity_mt price_per_mt purchase_date Hp) as H.
    destruct (Purchase.new_purchase_form _ _ _ _ _ _ _) as [m purchases'].
    simpl in *. split; assumption.
  - pose proof (status_change_nonneg (purchases st) (inventory st) edits Hp Hi) as H.
    destruct (Purchase.status_change _ _ _) as [shown [purchases' inventory']].
    simpl in *. tauto.
  - destruct (Refining.refining_form _ _ _) as [[m inventory']|] eqn:E; simpl.
    + split; [|exact Hp]. eapply refining_form_nonneg; eauto.
    + split; assumption.
  - destruct (Sales.new_sale_form _ _ _ _ _ _ _ _ _ _) as [[m [sales' inventory']]|] eqn:E;
      simpl.
    + split; [|exact Hp]. eapply new_sale_form_nonneg; eauto.
    + split; assumption.
  - split; assumption.
Qed.

(** C2.  From a state whose inventory quantities are all non-negative (and
    whose shipments on file carry non-negative quantities, as every shipment
    logged through the purchase form does), every sequence of page
    interactions - logging purchases, editing shipment statuses (which
    credits Crude on arrival), refining, booking sales, editing order
    statuses - ends in a state whose inventory quantities are all
    non-negative. *)
Theorem quantities_stay_nonneg (st : State) (ops : list Op) :
  quantities_nonneg (inventory st) ->
  shipments_nonneg (purchases st) ->
  quantities_nonneg (inventory (run st ops)).
Proof.
  intros Hi Hp.
  assert (H : quantities_nonneg (inventory st) /\ shipments_nonneg (purchases st))
    by (split; assumption).
  clear Hi Hp. revert st H.
  induction ops as [|op ops IH]; intros st H.
  - exact (proj1 H).
  - simpl. apply IH. apply step_nonneg. exact H.
Qed.

(** ** Status transitions of a shipment *)

Lemma ShipmentStatus_eqb_eq (a b : ShipmentStatus) : ShipmentStatus_eqb a b = true <-> a = b.
Proof. destruct a, b; simpl; split; intros H; try reflexivity; discriminate. Qed.

Lemma ShipmentStatus_eqb_refl (a : ShipmentStatus) : ShipmentStatus_eqb a a = true.
Proof. destruct a; reflexivity. Qed.

Lemma ShipmentStatus_eqb_neq (a b : ShipmentStatus) : ShipmentStatus_eqb a b = false <-> a <> b.
Proof.
  split.
  - intros H E. apply ShipmentStatus_eqb_eq in E. congruence.
  - intros H. destruct (ShipmentStatus_eqb a b) eqn:E; [|reflexivity].
    apply ShipmentStatus_eqb_eq in E. contradiction.
Qed.

Lemma data_editor_nil (purchases : Purchases) : Purchase.data_editor purchases [] = purchases.
Proof. destruct purchases; reflexivity. Qed.

Lemma equals_refl (purchases : Purchases) : Purchase.equals purchases purchases = true.
Proof.
  induction purchases as [|p l IH]; simpl; [reflexivity|].
  rewrite ShipmentStatus_eqb_refl. exact IH.
Qed.

Lemma status_row_same (row : Pur.row) (acc : list Purchase.message * Inventory) :
  Purchase.status_row (Pur.Status row) row acc = acc.
Proof.
  unfold Purchase.status_row. destruct acc as [shown inventory].
  rewrite ShipmentStatus_eqb_refl. reflexivity.
Qed.

Lemma status_loop_same (purchases : Purchases) (acc : list Purchase.message * Inventory) :
  Purchase.status_loop purchases purchases acc = acc.
Proof.
  revert acc. induction purchases as [|p l IH]; intros acc; simpl; [reflexivity|].
  rewrite status_row_same. apply IH.
Qed.

Section SelectStatus.

Variable s : ShipmentStatus.

Lemma data_editor_select (purchases : Purchases) (i : nat) (p : Pur.row) :
  nth_error purchases i = Some p ->
  nth_error (Purchase.data_editor purchases (Purchase.select_status i s)) i
    = Some (Pur.set_Status p s).
Proof.
  revert i. induction purchases as [|a l IH]; intros i H.
  - destruct i; discriminate.
  - destruct i as [|i]; simpl in *.
    + inversion H; subst. reflexivity.
    + apply IH. exact H.
Qed.

Lemma equals_select (purchases : Purchases) (i : nat) (p : Pur.row) :
  nth_error purchases i = Some p ->
  Purchase.equals (Purchase.data_editor purchases (Purchase.select_status i s)) purchases
    = ShipmentStatus_eqb s (Pur.Status p).
Proof.
  revert i. induction purchases as [|a l IH]; intros i H.
  - destruct i; discriminate.
  - destruct i as [|i]; simpl in *.
    + inversion H; subst. rewrite data_editor_nil, equals_refl. apply andb_true_r.
    + rewrite ShipmentStatus_eqb_refl. simpl. apply IH. exact H.
Qed.

Lemma status_loop_select (purchases : Purchases) (i : nat) (p : Pur.row)
    (acc : list Purchase.message * Inventory) :
  nth_error purchases i = Some p ->
  Purchase.status_loop purchases
    (Purchase.data_editor purchases (Purchase.select_status i s)) acc
    = Purchase.status_row (Pur.Status p) (Pur.set_Status p s) acc.
Proof.
  revert i acc. induction purchases as [|a l IH]; intros i acc H.
  - destruct i; discriminate.
  - destruct i as [|i]; simpl in *.
    + inversion H; subst. rewrite data_editor_nil. apply status_loop_same.
    + rewrite status_row_same. apply IH. exact H.
Qed.

End SelectStatus.

(** What one status-transition call does, case by case. *)
Lemma update_status_unfold (st : State) (i : nat) (p : Pur.row) (s : ShipmentStatus) :
  nth_error (purchases st) i = Some p ->
  update_status st i s =
    if ShipmentStatus_eqb s (Pur.Status p) then ([], st)
    else
      let edited := Purchase.data_editor (purchases st) (Purchase.select_status i s) in
      if ShipmentStatus_eqb s ReachedFactory then
        match index_where (oil_and_type (Pur.OilType p) Crude) (inventory st) with
        | idx :: _ =>
            ([Purchase.success_added_to_crude (Pur.ShipmentID p) (Pur.QuantityMT p)
                (Pur.OilType p); Purchase.info_changes_saved],
             mkState edited (sales st)
               (add_QuantityMT (inventory st) idx (Pur.QuantityMT p)))
        | [] => ([Purchase.info_changes_saved], mkState edited (sales st) (inventory st))
        end
      else ([Purchase.info_changes_saved], mkState edited (sales st) (inventory st)).
Proof.
  intros H. destruct st as [pur sal inv]. simpl in *.
  unfold update_status, Purchase.status_change. simpl.
  rewrite (equals_select s pur i p H), (status_loop_select s pur i p _ H).
  destruct (ShipmentStatus_eqb s (Pur.Status p)) eqn:E; simpl; [reflexivity|].
  unfold Purchase.status_row. simpl.
  assert (E' : ShipmentStatus_eqb (Pur.Status p) s = false).
  { apply ShipmentStatus_eqb_neq. apply ShipmentStatus_eqb_neq in E. congruence. }
  rewrite E'. simpl.
  destruct (ShipmentStatus_eqb s ReachedFactory) eqn:Es; simpl; [|reflexivity].
  apply ShipmentStatus_eqb_eq in Es. subst s. rewrite E'. simpl.
  destruct (index_where _ inv); reflexivity.
Qed.

Lemma index_where_none {A : Type} (mask : A -> bool) (df : list A) :
  (forall r, In r df -> mask r = false) -> index_where mask df = [].
Proof.
  induction df as [|a l IH]; intros H; simpl; [reflexivity|].
  rewrite (H a (or_introl eq_refl)), IH; [reflexivity|].
  intros r Hr. apply H. right. exact Hr.
Qed.

(** C10.  When a shipment that is not yet at the factory is set to Reached
    Factory and the inventory has no row for (its grade, Crude), the handler
    shows only the "changes saved" notice, the new status is on file, and
    the inventory is left exactly as it was: the credit is skipped without
    any error. *)
Theorem arrival_without_crude_row_skips_credit (st : State) (i : nat) (p : Pur.row) :
  nth_error (purchases st) i = Some p ->
  Pur.Status p <> ReachedFactory ->
  (forall r, In r (inventory st) ->
     ~ (Inv.OilType r = Pur.OilType p /\ Inv.InventoryType r = Crude)) ->
  exists purchases',
    update_status st i ReachedFactory
      = ([Purchase.info_changes_saved], mkState purchases' (sales st) (inventory st))
    /\ nth_error purchases' i = Some (Pur.set_Status p ReachedFactory).
Proof.
  intros Hp Hs Hno.
  rewrite (update_status_unfold st i p ReachedFactory Hp).
  assert (E : ShipmentStatus_eqb ReachedFactory (Pur.Status p) = false).
  { apply ShipmentStatus_eqb_neq. congruence. }
  rewrite E. simpl.
  rewrite index_where_none.
  - eexists. split; [reflexivity|]. apply data_editor_select. exact Hp.
  - intros r Hr. destruct (oil_and_type (Pur.OilType p) Crude r) eqn:Em; [|reflexivity].
    apply oil_and_type_true in Em. exfalso. exact (Hno r Hr Em).
Qed.

Lemma arrival_without_crude_row_skips_credit_witness :
  exists purchases',
    update_status ledger_without_rows 0 ReachedFactory
      = ([Purchase.info_changes_saved],
         mkState purchases' (sales ledger_without_rows) (inventory ledger_without_rows))
    /\ nth_error purchases' 0
       = Some (Pur.set_Status shipment_example ReachedFactory).
Proof.
  apply (arrival_without_crude_row_skips_credit ledger_without_rows 0 _ eq_refl).
  - discriminate.
  - simpl. intros r [E|[E|[]]] [Ho _]; subst r; discriminate.
Defined.

Lemma quantities_stay_nonneg_witness :
  quantities_nonneg (inventory (run ledger_example day_example)).
Proof.
  apply quantities_stay_nonneg.
  - repeat constructor; discriminate.
  - repeat constructor; discriminate.
Defined.

Lemma set_Status_same (p : Pur.row) : Pur.set_Status p (Pur.Status p) = p.
Proof. destruct p; reflexivity. Qed.



Lemma credits_app (a b : list Purchase.message) :
  credits (a ++ b) = (credits a + credits b)%nat.
Proof. unfold credits. rewrite filter_app, length_app. reflexivity. Qed.



(** ** Credits over a sequence of status transitions *)








(** ** Rounding *)


(** [py_round] is the floor, or the floor plus one, according to the
    fractional part. *)
Lemma py_round_spec (x : Q) :
  let f := Qfloor x in
  (x - inject_Z f < 1 # 2 /\ py_round x = f)
  \/ (x - inject_Z f == 1 # 2 /\ (py_round x = f \/ py_round x = (f + 1)%Z)
      /\ py_round x = if Z.even f then f else (f + 1)%Z)
  \/ (1 # 2 < x - inject_Z f /\ py_round x = (f + 1)%Z).
Proof.
  simpl. unfold py_round.
  destruct (Qcompare (x - inject_Z (Qfloor x)) (1 # 2)) eqn:E.
  - right; left. apply Qeq_alt in E. repeat split; [exact E|].
    destruct (Z.even (Qfloor x)); auto.
  - left. apply Qlt_alt in E. auto.
  - right; right. apply Qgt_alt in E. auto.
Qed.

Lemma py_round_bounds (x : Q) :
  x - (1 # 2) <= inject_Z (py_round x) <= x + (1 # 2).
Proof.
  pose proof (Qfloor_le x) as Hlo. pose proof (Qlt_floor x) as Hhi.
  rewrite inject_Z_plus in Hhi. change (inject_Z 1) with 1 in Hhi.
  destruct (py_round_spec x) as [(H & E)|[(H & [E|E] & _)|(H & E)]]; rewrite E;
    try rewrite inject_Z_plus; try change (inject_Z 1) with 1; lra.
Qed.

Lemma py_round_le (x y : Q) : x <= y -> (py_round x <= py_round y)%Z.
Proof.
  intros Hxy.
  pose proof (Qfloor_resp_le x y Hxy) as Hf.
  pose proof (Qfloor_le x) as Hx. pose proof (Qlt_floor y) as Hy.
  destruct (Z.eq_dec (Qfloor x) (Qfloor y)) as [Heq|Hne].
  - destruct (py_round_spec x) as [(H & E)|[(H & _ & E)|(H & E)]];
      destruct (py_round_spec y) as [(H' & E')|[(H' & _ & E')|(H' & E')]];
      rewrite E, E'; rewrite <- Heq in *;
      try (destruct (Z.even (Qfloor x)); lia); try lia; exfalso; lra.
  - assert (Hlt : (Qfloor x + 1 <= Qfloor y)%Z) by lia.
    destruct (py_round_spec x) as [(_ & E)|[(_ & [E|E] & _)|(_ & E)]];
      destruct (py_round_spec y) as [(_ & E')|[(_ & [E'|E'] & _)|(_ & E')]];
      rewrite E, E'; lia.
Qed.


Lemma py_round_nonneg (x : Q) : 0 <= x -> (0 <= py_round x)%Z.
Proof. intros H. change 0%Z with (py_round 0). apply py_round_le. exact H. Qed.

Lemma py_round2_bounds (x : Q) :
  x - (1 # 200) <= py_round2 x <= x + (1 # 200).
Proof.
  unfold py_round2. pose proof (py_round_bounds (x * 100)) as H.
  unfold Qdiv. change (/ 100) with (1 # 100). lra.
Qed.

Lemma py_round2_cents (x : Q) : py_round2 x == py_round (x * 100) # 100.
Proof. unfold py_round2. rewrite (Qmake_Qdiv (py_round (x * 100)) 100). reflexivity. Qed.

(** ** The quote *)

Lemma quantity_litres_eq (oil : Oil) (q : Q) :
  (q * 1000) / OIL_DENSITIES oil == q * litres_per_tonne oil.
Proof. unfold litres_per_tonne. destruct oil; simpl; field. Qed.

Lemma litres_per_tonne_bounds (oil : Oil) : 1000 <= litres_per_tonne oil <= 1100.
Proof. destruct oil; vm_compute; split; discriminate. Qed.

Lemma current_prices_bound (day_of_year : Z) (oil : Oil) :
  (1 <= day_of_year)%Z -> 75015 <= inject_Z (current_prices day_of_year oil).
Proof.
  intros H. change 75015 with (inject_Z 75015). rewrite <- Zle_Qle.
  destruct oil; unfold current_prices; lia.
Qed.

Lemma total_price_eq (day_of_year : Z) (oil : Oil) (q d : Q) :
  total_price day_of_year oil q d
  == (inject_Z (current_prices day_of_year oil) * q + q * litres_per_tonne oil * 10 + d * 12)
     * (105 # 100).
Proof.
  unfold total_price, TRANSPORT_COST_PER_KM, IGST_RATE.
  rewrite (quantity_litres_eq oil q). ring.
Qed.

Lemma app_quote_unfold (day_of_year : Z) (oil : Oil) (q d : Q) :
  0 < q -> 0 < d ->
  App.calculate_sale_price day_of_year oil q d
  = (py_round (total_price day_of_year oil q d),
     price_per_litre (py_round (total_price day_of_year oil q d))
       ((q * 1000) / OIL_DENSITIES oil)).
Proof.
  intros Hq Hd. unfold App.calculate_sale_price.
  apply Qle_bool_false in Hq. apply Qle_bool_false in Hd. rewrite Hq, Hd.
  reflexivity.
Qed.

Lemma app_quote_degenerate (day_of_year : Z) (oil : Oil) (q d : Q) :
  q <= 0 \/ d <= 0 ->
  App.calculate_sale_price day_of_year oil q d = (0%Z, 0).
Proof.
  intros H. unfold App.calculate_sale_price.
  destruct H as [H|H]; apply Qle_bool_iff in H; rewrite H;
    [reflexivity|rewrite orb_true_r; reflexivity].
Qed.

Lemma sales_quote_degenerate (day_of_year : Z) (oil : Oil) (q d : Q) :
  q <= 0 ->
  Sales.calculate_sale_price day_of_year oil q d = (0%Z, 0).
Proof.
  intros H. unfold Sales.calculate_sale_price.
  apply Qle_bool_iff in H. rewrite H. reflexivity.
Qed.

(** The integer that [py_round] returns is even whenever the value is
    exactly halfway between two integers. *)
Lemma py_round_tie_even (x : Q) :
  x - inject_Z (py_round x) == 1 # 2 \/ inject_Z (py_round x) - x == 1 # 2 ->
  Z.even (py_round x) = true.
Proof.
  pose proof (Qfloor_le x) as Hlo. pose proof (Qlt_floor x) as Hhi.
  rewrite inject_Z_plus in Hhi. change (inject_Z 1) with 1 in Hhi.
  destruct (py_round_spec x) as [(H & E)|[(H & _ & E)|(H & E)]]; rewrite E.
  - intros [T|T]; exfalso; lra.
  - intros _. destruct (Z.even (Qfloor x)) eqn:Ev; [exact Ev|].
    rewrite Z.add_1_r, Z.even_succ, <- Z.negb_even, Ev. reflexivity.
  - rewrite inject_Z_plus. change (inject_Z 1) with 1.
    intros [T|T]; exfalso; lra.
Qed.

(** The comparisons of the code on a positive float. *)
Lemma float_pos_not_le (x : float) : (0 <? x)%float = true -> (x <=? 0)%float = false.
Proof.
  rewrite ltb_spec, leb_spec.
  change (Prim2SF 0%float) with (S754_zero false).
  destruct (Prim2SF x) as [s|s| |s m e]; try destruct s; simpl;
    try reflexivity; discriminate.
Qed.

(** [round(x, 2)] returns the float nearest to a whole number of hundredths
    that is within half a hundredth of the value of [x]. *)
Lemma float_round2_hundredths (x : float) (w : Q) :
  Float64.F2Q x = Some w ->
  exists cents : Z,
    w - (1 # 200) <= cents # 100 <= w + (1 # 200)
    /\ Float64.py_round2 x
       = match cents with
         | Z0 => (x * 0)%float
         | _ => Float64.nearest_float cents 100
         end.
Proof.
  intros H. exists (py_round (w * 100)). split.
  - pose proof (py_round2_bounds w) as Hb. rewrite py_round2_cents in Hb. exact Hb.
  - unfold Float64.py_round2. rewrite H.
    destruct (py_round (w * 100)); reflexivity.
Qed.

(** C6 (amended).  For a positive quantity and a positive distance whose
    price is finite, the quote of the dashboard is, in the binary64
    arithmetic of the code:
    [total = round(sub_total + sub_total * 0.05)] with
    [sub_total = price * q + ((q * 1000) / density) * 10 + d * 12],
    the integer nearest to that float (within one half of its value, and
    even when the value is exactly halfway); and the price per litre is
    [round(total / volume, 2)] with [volume = (q * 1000) / density], the
    float nearest to a whole number of hundredths within half a hundredth
    of [total / volume], or 0 when the volume is not positive. *)
Theorem quote_rounds_the_float_price (day_of_year : Z) (g : Oil) (q d : float) (v : Q) :
  (0 <? q)%float = true -> (0 <? d)%float = true ->
  Float64.F2Q (Float64.total_price day_of_year g q d) = Some v ->
  let volume := ((q * 1000) / Float64.OIL_DENSITIES g)%float in
  exists total : Z,
    Float64.calculate_sale_price day_of_year g q d
      = Some (total, Float64.price_per_litre total volume)
    /\ v - (1 # 2) <= inject_Z total <= v + (1 # 2)
    /\ (v - inject_Z total == 1 # 2 \/ inject_Z total - v == 1 # 2 -> Z.even total = true)
    /\ ((0 <? volume)%float = true ->
        Float64.price_per_litre total volume
        = Float64.py_round2 (Float64.Z2F total / volume)%float
        /\ forall w, Float64.F2Q (Float64.Z2F total / volume)%float = Some w ->
             exists cents : Z,
               w - (1 # 200) <= cents # 100 <= w + (1 # 200)
               /\ Float64.price_per_litre total volume
                  = match cents with
                    | Z0 => ((Float64.Z2F total / volume) * 0)%float
                    | _ => Float64.nearest_float cents 100
                    end)
    /\ ((0 <? volume)%float = false -> Float64.price_per_litre total volume = 0%float).
Proof.
  intros Hq Hd Hv volume.
  exists (py_round v).
  split; [|split; [apply py_round_bounds|split; [apply py_round_tie_even|split]]].
  - unfold Float64.calculate_sale_price.
    rewrite (float_pos_not_le q Hq), (float_pos_not_le d Hd). simpl orb. cbv iota.
    assert (E : Float64.py_round (Float64.total_price day_of_year g q d)
                = Some (py_round v)).
    { unfold Float64.py_round. rewrite Hv. reflexivity. }
    unfold Float64.total_price in E. simpl in E |- *. rewrite E. reflexivity.
  - intros Hvol. unfold Float64.price_per_litre at 1. rewrite Hvol.
    split; [reflexivity|].
    intros w Hw. destruct (float_round2_hundredths _ w Hw) as (cents & Hb & E).
    exists cents. split; [exact Hb|].
    unfold Float64.price_per_litre. rewrite Hvol. exact E.
  - intros Hvol. unfold Float64.price_per_litre. rewrite Hvol. reflexivity.
Qed.

Lemma quote_rounds_the_float_price_witness :
  exists (v : Q) (total : Z),
    Float64.F2Q (Float64.total_price 16 PalmOil 15.25 5) = Some v
    /\ Float64.calculate_sale_price 16 PalmOil 15.25 5
       = Some (total,
               Float64.price_per_litre total ((15.25 * 1000) / Float64.OIL_DENSITIES PalmOil))
    /\ v - (1 # 2) <= inject_Z total <= v + (1 # 2).
Proof.
  assert (H : exists v, Float64.F2Q (Float64.total_price 16 PalmOil 15.25 5) = Some v)
    by (eexists; vm_compute; reflexivity).
  destruct H as (v & Hv).
  destruct (quote_rounds_the_float_price 16 PalmOil 15.25 5 v eq_refl eq_refl Hv)
    as (total & E & Hb & _).
  exists v, total. split; [exact Hv|]. split; [exact E|exact Hb].
Defined.

(** C6 as stated fails: for 15.25 MT of Palm Oil over 5 km on day 16 the
    code returns the total 1379843 (its unrounded price is the float
    1379843.4999999998), while the formula of the claim,
    [round(sub_total * (1 + 0.05))], gives 1379844, in the arithmetic of
    the code as well as in exact arithmetic (where the price is exactly
    1379843.5). *)
Lemma quote_total_off_the_formula :
  Float64.calculate_sale_price 16 PalmOil 15.25 5 = Some (1379843%Z, 82.79%float)
  /\ Float64.total_price 16 PalmOil 15.25 5 = 1379843.4999999998%float
  /\ Float64.spec_total 16 PalmOil 15.25 5 = Some 1379844%Z
  /\ py_round ((inject_Z (current_prices 16 PalmOil) * (1525 # 100)
                + (((1525 # 100) * 1000) / OIL_DENSITIES PalmOil) * 10 + 5 * 12)
               * (1 + (5 # 100))) = 1379844%Z.
Proof. repeat split; vm_compute; reflexivity. Qed.

(** ** Monotonicity of the quote *)

Lemma total_price_nonneg (day_of_year : Z) (g : Oil) (q d : Q) :
  (1 <= day_of_year)%Z -> 0 <= q -> 0 <= d -> 0 <= total_price day_of_year g q d.
Proof.
  intros Hday Hq Hd. rewrite total_price_eq.
  pose proof (current_prices_bound day_of_year g Hday).
  pose proof (litres_per_tonne_bounds g). nra.
Qed.

Lemma total_price_le (day_of_year : Z) (g : Oil) (q1 q2 d1 d2 : Q) :
  (1 <= day_of_year)%Z -> q1 <= q2 -> d1 <= d2 ->
  total_price day_of_year g q1 d1 <= total_price day_of_year g q2 d2.
Proof.
  intros Hday Hq Hd. rewrite !total_price_eq.
  pose proof (current_prices_bound day_of_year g Hday).
  pose proof (litres_per_tonne_bounds g). nra.
Qed.

Lemma app_quote_nonneg (day_of_year : Z) (g : Oil) (q d : Q) :
  (1 <= day_of_year)%Z -> (0 <= fst (App.calculate_sale_price day_of_year g q d))%Z.
Proof.
  intros Hday.
  destruct (Qlt_le_dec 0 q) as [Hq|Hq]; [destruct (Qlt_le_dec 0 d) as [Hd|Hd]|].
  - rewrite (app_quote_unfold _ _ _ _ Hq Hd). simpl.
    apply py_round_nonneg. apply total_price_nonneg; [exact Hday|lra|lra].
  - rewrite app_quote_degenerate; [simpl; lia|right; exact Hd].
  - rewrite app_quote_degenerate; [simpl; lia|left; exact Hq].
Qed.

Lemma app_quote_le (day_of_year : Z) (g : Oil) (q1 q2 d1 d2 : Q) :
  (1 <= day_of_year)%Z -> q1 <= q2 -> d1 <= d2 ->
  (fst (App.calculate_sale_price day_of_year g q1 d1)
   <= fst (App.calculate_sale_price day_of_year g q2 d2))%Z.
Proof.
  intros Hday Hq Hd.
  destruct (Qlt_le_dec 0 q1) as [Hq1|Hq1]; [destruct (Qlt_le_dec 0 d1) as [Hd1|Hd1]|].
  - rewrite (app_quote_unfold _ _ q1 d1 Hq1 Hd1).
    rewrite (app_quote_unfold _ _ q2 d2); [|lra|lra]. simpl.
    apply py_round_le. apply total_price_le; assumption.
  - rewrite (app_quote_degenerate _ _ q1 d1); [|right; exact Hd1].
    apply app_quote_nonneg. exact Hday.
  - rewrite (app_quote_degenerate _ _ q1 d1); [|left; exact Hq1].
    apply app_quote_nonneg. exact Hday.
Qed.

(** C7 (amended).  On any day of the year and for a fixed grade, the total
    of the quote never decreases when the quantity grows at a fixed distance,
    nor when the distance grows at a fixed quantity. *)
Theorem quote_total_monotone (day_of_year : Z) (g : Oil) :
  (1 <= day_of_year <= 366)%Z ->
  (forall d q1 q2, q1 <= q2 ->
     (fst (App.calculate_sale_price day_of_year g q1 d)
      <= fst (App.calculate_sale_price day_of_year g q2 d))%Z)
  /\ (forall q d1 d2, d1 <= d2 ->
     (fst (App.calculate_sale_price day_of_year g q d1)
      <= fst (App.calculate_sale_price day_of_year g q d2))%Z).
Proof.
  intros [Hday _].
  split.
  - intros d q1 q2 H. apply app_quote_le; [exact Hday|exact H|lra].
  - intros q d1 d2 H. apply app_quote_le; [exact Hday|lra|exact H].
Qed.

Lemma quote_total_monotone_witness :
  (forall d q1 q2, q1 <= q2 ->
     (fst (App.calculate_sale_price 16 PalmOil q1 d)
      <= fst (App.calculate_sale_price 16 PalmOil q2 d))%Z)
  /\ (forall q d1 d2, d1 <= d2 ->
     (fst (App.calculate_sale_price 16 PalmOil q d1)
      <= fst (App.calculate_sale_price 16 PalmOil q d2))%Z).
Proof. apply (quote_total_monotone 16 PalmOil). lia. Defined.

(** C7 as stated fails: on day 1, at 1 km, the quotes for 1 MT and for
    1.000001 MT of Crude Degummed Oil have the same total, and so have the
    quotes for 1 MT at 1 km and at 1.001 km. *)
Lemma quote_total_not_strictly_monotone :
  1 < 1000001 # 1000000
  /\ fst (App.calculate_sale_price 1 CrudeDegummedOil 1 1) = 95441%Z
  /\ fst (App.calculate_sale_price 1 CrudeDegummedOil (1000001 # 1000000) 1) = 95441%Z
  /\ 1 < 1001 # 1000
  /\ fst (App.calculate_sale_price 1 CrudeDegummedOil 1 (1001 # 1000)) = 95441%Z
  /\ ~ (forall d q1 q2, 0 < d -> q1 < q2 ->
          (fst (App.calculate_sale_price 1 CrudeDegummedOil q1 d)
           < fst (App.calculate_sale_price 1 CrudeDegummedOil q2 d))%Z).
Proof.
  repeat split.
  intros H. specialize (H 1 1 (1000001 # 1000000) eq_refl eq_refl).
  vm_compute in H. discriminate.
Qed.

(** C5.  The dashboard returns (0, 0) for a quantity or a distance that is
    not positive, but the copy on the sales page tests the quantity only: at
    the values the sales form starts with (0.1 MT, 0 km) it quotes 9543 and
    87.80 per litre on day 1 for Crude Degummed Oil, where the dashboard
    returns (0, 0). *)
Theorem sales_quote_ignores_distance :
  fst (Sales.calculate_sale_price 1 CrudeDegummedOil (1 # 10) 0) = 9543%Z
  /\ snd (Sales.calculate_sale_price 1 CrudeDegummedOil (1 # 10) 0) == 8780 # 100
  /\ Sales.calculate_sale_price 1 CrudeDegummedOil (1 # 10) 0 <> (0%Z, 0)
  /\ App.calculate_sale_price 1 CrudeDegummedOil (1 # 10) 0 = (0%Z, 0).
Proof.
  split; [reflexivity|]. split; [reflexivity|]. split; [|reflexivity].
  intros H. apply (f_equal fst) in H. vm_compute in H. discriminate.
Qed.

(** ** Order ids *)

(** The ids only depend on the whole second of the clock. *)
Lemma ids_of_same_second (t1 t2 : Q) :
  py_int t1 = py_int t2 ->
  Purchase.shipment_id t1 = Purchase.shipment_id t2
  /\ Sales.order_id t1 = Sales.order_id t2.
Proof.
  intros H. unfold Purchase.shipment_id, Sales.order_id. rewrite H. split; reflexivity.
Qed.

(** C9.  Two purchases logged within the same second get the same shipment
    id, and two sales booked within the same second get the same order id. *)
Theorem ids_collide_within_a_second :
  map Pur.ShipmentID (purchases (run (mkState [] [] stock_example) purchases_same_second))
    = ["SHP-1700000000"; "SHP-1700000000"]%string
  /\ map Sal.OrderID (sales (run (mkState [] [] stock_example) bookings_same_second))
     = ["ORD-1700000000"; "ORD-1700000000"]%string.
Proof. split; vm_compute; reflexivity. Qed.

(** * Further properties of the pages *)

(** ** The rows of the inventory are never added, removed or re-keyed *)

Lemma inventory_keys_loc_update (inventory : Inventory) (idx : nat) (g : Inv.row -> Q) :
  inventory_keys (loc_update inventory idx (fun r => Inv.set_QuantityMT r (g r)))
  = inventory_keys inventory.
Proof.
  revert idx. induction inventory as [|a l IH]; intros idx; [reflexivity|].
  destruct idx as [|i]; simpl; [reflexivity|].
  f_equal. apply IH.
Qed.

Lemma refining_form_keys (inventory inventory' : Inventory) (oil : Oil) (x : Q)
    (m : Refining.message) :
  Refining.refining_form inventory oil x = Some (m, inventory') ->
  inventory_keys inventory' = inventory_keys inventory.
Proof.
  unfold Refining.refining_form.
  destruct (oil_options_labels _ _); [|discriminate].
  destruct (loc_QuantityMT _ _) as [c|]; [|discriminate].
  destruct (Qle_bool x 0); [intros E; inversion E; reflexivity|].
  destruct (Qgt_bool x c); [intros E; inversion E; reflexivity|].
  destruct (index_where (oil_and_type oil Crude) inventory) as [|ci crest]; [discriminate|].
  destruct (index_where (oil_and_type oil Refined) inventory) as [|ri rrest]; [discriminate|].
  intros E; inversion E. unfold add_QuantityMT, sub_QuantityMT.
  rewrite (inventory_keys_loc_update _ ri (fun r => Inv.QuantityMT r + x)).
  apply (inventory_keys_loc_update _ ci (fun r => Inv.QuantityMT r - x)).
Qed.

Lemma new_sale_form_keys (day_of_year : Z) (now : Q) (sales sales' : SalesTable)
    (inventory inventory' : Inventory) (vendor_name destination : string)
    (distance_km : Z) (oil : Oil) (q : Q) (order_date : string) (m : Sales.message) :
  Sales.new_sale_form day_of_year now sales inventory vendor_name destination
    distance_km oil q order_date = Some (m, (sales', inventory')) ->
  inventory_keys inventory' = inventory_keys inventory.
Proof.
  unfold Sales.new_sale_form.
  destruct (oil_options_labels _ _); [|discriminate].
  destruct (Sales.calculate_sale_price _ _ _ _) as [final_price price_per_lt].
  destruct (_ || _ || _ || _); [intros E; inversion E; reflexivity|].
  destruct (loc_QuantityMT _ _) as [a|]; [|discriminate].
  destruct (Qgt_bool q a); [intros E; inversion E; reflexivity|].
  destruct (index_where (oil_and_type oil Refined) inventory) as [|ri rrest]; [discriminate|].
  intros E; inversion E. unfold sub_QuantityMT.
  apply (inventory_keys_loc_update _ ri (fun r => Inv.QuantityMT r - q)).
Qed.

Lemma status_row_keys (original_status : ShipmentStatus) (row : Pur.row)
    (acc : list Purchase.message * Inventory) :
  inventory_keys (snd (Purchase.status_row original_status row acc))
  = inventory_keys (snd acc).
Proof.
  destruct acc as [shown inventory]. unfold Purchase.status_row.
  destruct (negb _); [|reflexivity].
  destruct (_ && _); [|reflexivity].
  destruct (index_where _ inventory) as [|idx rest]; [reflexivity|].
  simpl. unfold add_QuantityMT.
  apply (inventory_keys_loc_update _ idx (fun r => Inv.QuantityMT r + Pur.QuantityMT row)).
Qed.

Lemma status_loop_keys (purchases edited_df : Purchases)
    (acc : list Purchase.message * Inventory) :
  inventory_keys (snd (Purchase.status_loop purchases edited_df acc))
  = inventory_keys (snd acc).
Proof.
  revert edited_df acc.
  induction purchases as [|p purchases IH]; intros edited_df acc; [reflexivity|].
  destruct edited_df as [|row edited_df]; [reflexivity|].
  simpl. rewrite IH. apply status_row_keys.
Qed.

Lemma status_change_keys (purchases : Purchases) (inventory : Inventory)
    (edits : list (option ShipmentStatus)) :
  inventory_keys (snd (snd (Purchase.status_change purchases inventory edits)))
  = inventory_keys inventory.
Proof.
  unfold Purchase.status_change.
  destruct (negb _); [|reflexivity].
  pose proof (status_loop_keys purchases (Purchase.data_editor purchases edits)
                ([], inventory)) as H.
  destruct (Purchase.status_loop _ _ _) as [shown inventory']. exact H.
Qed.

Lemma step_keys (st : State) (op : Op) :
  inventory_keys (inventory (step st op)) = inventory_keys (inventory st).
Proof.
  destruct op; simpl.
  - destruct (Purchase.new_purchase_form _ _ _ _ _ _ _); reflexivity.
  - pose proof (status_change_keys (purchases st) (inventory st) edits) as H.
    destruct (Purchase.status_change _ _ _) as [shown [purchases' inventory']]. exact H.
  - destruct (Refining.refining_form _ _ _) as [[m inventory']|] eqn:E; [|reflexivity].
    simpl. eapply refining_form_keys; eauto.
  - destruct (Sales.new_sale_form _ _ _ _ _ _ _ _ _ _) as [[m [sales' inventory']]|] eqn:E;
      [|reflexivity].
    simpl. eapply new_sale_form_keys; eauto.
  - reflexivity.
Qed.

Lemma run_keys (st : State) (ops : list Op) :
  inventory_keys (inventory (run st ops)) = inventory_keys (inventory st).
Proof.
  unfold run. revert st. induction ops as [|op ops IH]; intros st; [reflexivity|].
  simpl. rewrite IH. apply step_keys.
Qed.

(** X1.  No sequence of page interactions adds, removes, reorders or
    re-keys a row of the inventory: the (grade, pool) columns of the file
    are the same after as before. *)
Theorem inventory_keys_preserved (st : State) (ops : list Op) :
  inventory_keys (inventory (run st ops)) = inventory_keys (inventory st).
Proof. exact (run_keys st ops). Qed.

Lemma filter_keys_length (oil : Oil) (ty : InventoryType) (a b : Inventory) :
  inventory_keys a = inventory_keys b ->
  List.length (filter (oil_and_type oil ty) a) = List.length (filter (oil_and_type oil ty) b).
Proof.
  revert b. induction a as [|r a IH]; intros [|r' b] H; try discriminate; [reflexivity|].
  simpl in H. inversion H as [[Ho Ht Hk]].
  assert (E : oil_and_type oil ty r = oil_and_type oil ty r').
  { unfold oil_and_type. rewrite Ho, Ht. reflexivity. }
  simpl. rewrite E.
  destruct (oil_and_type oil ty r'); simpl; rewrite (IH b Hk); reflexivity.
Qed.

Lemma snapshot_None_length (inventory : Inventory) (oil : Oil) (ty : InventoryType) :
  snapshot inventory oil ty = None
  <-> List.length (filter (oil_and_type oil ty) inventory) <> 1%nat.
Proof.
  rewrite snapshot_filter.
  destruct (filter (oil_and_type oil ty) inventory) as [|r [|r' t]]; simpl;
    split; intros H; try discriminate; try reflexivity; congruence.
Qed.

(** X2.  A stock that the pages can read (exactly one row for its grade
    and pool) can still be read after any sequence of page interactions. *)
Theorem stock_stays_readable (st : State) (ops : list Op) (oil : Oil) (ty : InventoryType) :
  snapshot (inventory st) oil ty <> None ->
  snapshot (inventory (run st ops)) oil ty <> None.
Proof.
  intros H Hn. apply H.
  apply snapshot_None_length. apply snapshot_None_length in Hn.
  rewrite <- (filter_keys_length oil ty _ _ (run_keys st ops)).
  exact Hn.
Qed.

Lemma stock_stays_readable_witness :
  snapshot (inventory (run ledger_example day_example)) PalmOil Refined <> None.
Proof.
  apply (stock_stays_readable ledger_example day_example PalmOil Refined).
  discriminate.
Defined.

(** ** The stock totals of the dashboard *)

(** The total of a pool only reads the rows of that pool. *)
Lemma total_stock_rows (inventory inventory' : Inventory) (ty : InventoryType) :
  set_index_OilType inventory' ty = set_index_OilType inventory ty ->
  Dashboard.total_stock inventory' ty = Dashboard.total_stock inventory ty.
Proof.
  unfold set_index_OilType, Dashboard.total_stock. intros H. rewrite H. reflexivity.
Qed.

(** An update of the quantity in a row of one pool leaves the rows of the
    other pool as they are. *)
Lemma set_index_other_pool (inventory : Inventory) (oil : Oil) (ty0 ty : InventoryType)
    (idx : nat) (rest : list nat) (g : Inv.row -> Q) :
  index_where (oil_and_type oil ty0) inventory = idx :: rest ->
  ty0 <> ty ->
  set_index_OilType (loc_update inventory idx (fun r => Inv.set_QuantityMT r (g r))) ty
  = set_index_OilType inventory ty.
Proof.
  intros Hi Hne. unfold set_index_OilType.
  apply filter_loc_update_miss; [reflexivity|].
  intros r Hr.
  destruct (index_where_first _ _ _ _ Hi) as (r0 & t & _ & Hn & Hm).
  rewrite Hn in Hr. inversion Hr; subst r0.
  apply oil_and_type_true in Hm. destruct Hm as [_ Ht]. rewrite Ht.
  destruct ty0, ty; try reflexivity; congruence.
Qed.

Lemma pending_sales_app (sales : SalesTable) (order : Sal.row) :
  Sal.Status order = UnderProcess \/ Sal.Status order = Confirmed ->
  Dashboard.pending_sales (sales ++ [order]) = S (Dashboard.pending_sales sales).
Proof.
  intros H. unfold Dashboard.pending_sales. rewrite filter_app, length_app. simpl.
  destruct H as [H|H]; rewrite H; simpl; lia.
Qed.

(** X4.  A booking that the sales form handles never touches a Crude row,
    so the dashboard's total Crude is the same number after as before.
    Rejected fields save nothing; a booking beyond the stock leaves the
    inventory exactly as it was and adds one pending order; a confirmed
    booking adds one pending order. *)
Theorem booking_leaves_crude_rows (day_of_year : Z) (now : Q) (sales sales' : SalesTable)
    (inventory inventory' : Inventory) (vendor_name destination : string)
    (distance_km : Z) (oil : Oil) (q : Q) (order_date : string) (m : Sales.message) :
  Sales.new_sale_form day_of_year now sales inventory vendor_name destination
    distance_km oil q order_date = Some (m, (sales', inventory')) ->
  set_index_OilType inventory' Crude = set_index_OilType inventory Crude
  /\ Dashboard.total_stock inventory' Crude = Dashboard.total_stock inventory Crude
  /\ match m with
     | Sales.warning_fill_fields => sales' = sales /\ inventory' = inventory
     | Sales.warning_under_process _ _ =>
         inventory' = inventory
         /\ Dashboard.pending_sales sales' = S (Dashboard.pending_sales sales)
     | Sales.success_confirmed _ _ _ =>
         Dashboard.pending_sales sales' = S (Dashboard.pending_sales sales)
     | Sales.toast_status_updated => False
     end.
Proof.
  unfold Sales.new_sale_form.
  destruct (oil_options_labels _ _); [|discriminate].
  destruct (Sales.calculate_sale_price _ _ _ _) as [final_price price_per_lt].
  destruct (_ || _ || _ || _);
    [intros E; inversion E; subst; repeat split; reflexivity|].
  destruct (loc_QuantityMT _ _) as [a|]; [|discriminate].
  destruct (Qgt_bool q a).
  - intros E; inversion E; subst. repeat split; try reflexivity.
    apply pending_sales_app. left. reflexivity.
  - destruct (index_where (oil_and_type oil Refined) inventory) as [|ri rrest] eqn:Hri;
      [discriminate|].
    intros E; inversion E; subst. clear E.
    assert (Hrows : set_index_OilType (sub_QuantityMT inventory ri q) Crude
                    = set_index_OilType inventory Crude).
    { unfold sub_QuantityMT.
      apply (set_index_other_pool inventory oil Refined Crude ri rrest
               (fun r => Inv.QuantityMT r - q) Hri).
      discriminate. }
    split; [exact Hrows|]. split; [apply total_stock_rows; exact Hrows|].
    apply pending_sales_app. right. reflexivity.
Qed.

Lemma booking_leaves_crude_rows_witness :
  exists m sales' inventory',
    Sales.new_sale_form 16 1700000200 [] stock_example "National Retailers"
      "Mumbai Warehouse" 100 CrudeSunflowerOil 2 "2024-01-16"
      = Some (m, (sales', inventory'))
    /\ m = Sales.success_confirmed "ORD-1700000200" 2 CrudeSunflowerOil
    /\ set_index_OilType inventory' Crude = set_index_OilType stock_example Crude
    /\ Dashboard.total_stock inventory' Crude = Dashboard.total_stock stock_example Crude
    /\ Dashboard.pending_sales sales' = 1%nat.
Proof.
  do 3 eexists. split; [reflexivity|]. split; [reflexivity|].
  pose proof (booking_leaves_crude_rows 16 1700000200 [] _ stock_example _
                "National Retailers" "Mumbai Warehouse" 100 CrudeSunflowerOil 2
                "2024-01-16" _ eq_refl) as (H1 & H2 & H3).
  split; [exact H1|]. split; [exact H2|exact H3].
Defined.

(** ** An edit of several shipments at once *)

Lemma status_row_cases (original_status : ShipmentStatus) (row : Pur.row)
    (shown : list Purchase.message) (inventory : Inventory) :
  Purchase.status_row original_status row (shown, inventory)
  = if ShipmentStatus_eqb (Pur.Status row) ReachedFactory
       && negb (ShipmentStatus_eqb original_status ReachedFactory)
    then
      match index_where (oil_and_type (Pur.OilType row) Crude) inventory with
      | idx :: _ =>
          (shown ++ [Purchase.success_added_to_crude (Pur.ShipmentID row)
                       (Pur.QuantityMT row) (Pur.OilType row)],
           add_QuantityMT inventory idx (Pur.QuantityMT row))
      | [] => (shown, inventory)
      end
    else (shown, inventory).
Proof.
  unfold Purchase.status_row.
  destruct original_status, (Pur.Status row); reflexivity.
Qed.

Lemma equals_newly_arrived (purchases edited_df : Purchases) :
  Purchase.equals edited_df purchases = true -> newly_arrived purchases edited_df = [].
Proof.
  revert edited_df.
  induction purchases as [|p purchases IH]; intros [|row edited_df] H; try reflexivity.
  simpl in H. apply andb_true_iff in H. destruct H as [Hs H].
  apply ShipmentStatus_eqb_eq in Hs. simpl. rewrite Hs, (IH _ H).
  destruct (Pur.Status p); reflexivity.
Qed.

Lemma equals_data_editor (purchases : Purchases) (edits : list (option ShipmentStatus)) :
  Purchase.equals (Purchase.data_editor purchases edits) purchases = true ->
  Purchase.data_editor purchases edits = purchases.
Proof.
  revert edits.
  induction purchases as [|p purchases IH]; intros [|[s|] edits] H; try reflexivity;
    simpl in *; apply andb_true_iff in H; destruct H as [Hs H].
  - apply ShipmentStatus_eqb_eq in Hs. rewrite Hs, set_Status_same, (IH _ H). reflexivity.
  - rewrite (IH _ H). reflexivity.
Qed.

Lemma status_loop_totals (purchases edited_df : Purchases) :
  forall (shown : list Purchase.message) (inventory : Inventory),
    (forall oil, index_where (oil_and_type oil Crude) inventory <> []) ->
    let result := Purchase.status_loop purchases edited_df (shown, inventory) in
    credits (fst result)
      = (credits shown + List.length (newly_arrived purchases edited_df))%nat
    /\ set_index_OilType (snd result) Refined = set_index_OilType inventory Refined.
Proof.
  revert edited_df.
  induction purchases as [|p purchases IH]; intros edited_df shown inventory Hrows.
  - simpl. split; [lia|reflexivity].
  - destruct edited_df as [|row edited_df].
    + simpl. split; [lia|reflexivity].
    + cbv zeta.
      change (Purchase.status_loop (p :: purchases) (row :: edited_df) (shown, inventory))
        with (Purchase.status_loop purchases edited_df
                (Purchase.status_row (Pur.Status p) row (shown, inventory))).
      change (newly_arrived (p :: purchases) (row :: edited_df))
        with (if ShipmentStatus_eqb (Pur.Status row) ReachedFactory
                 && negb (ShipmentStatus_eqb (Pur.Status p) ReachedFactory)
              then row :: newly_arrived purchases edited_df
              else newly_arrived purchases edited_df).
      rewrite status_row_cases.
      destruct (ShipmentStatus_eqb (Pur.Status row) ReachedFactory
                && negb (ShipmentStatus_eqb (Pur.Status p) ReachedFactory)).
      * destruct (index_where (oil_and_type (Pur.OilType row) Crude) inventory)
          as [|idx rest] eqn:Hi; [exfalso; exact (Hrows _ Hi)|].
        assert (Hrows' : forall oil,
                   index_where (oil_and_type oil Crude)
                     (add_QuantityMT inventory idx (Pur.QuantityMT row)) <> []).
        { intros oil. unfold add_QuantityMT.
          rewrite index_where_loc_update; [apply Hrows|reflexivity]. }
        destruct (IH edited_df
                    (shown ++ [Purchase.success_added_to_crude (Pur.ShipmentID row)
                                 (Pur.QuantityMT row) (Pur.OilType row)])
                    _ Hrows') as (H1 & H2).
        split.
        -- rewrite H1, credits_app.
           change (credits [Purchase.success_added_to_crude (Pur.ShipmentID row)
                              (Pur.QuantityMT row) (Pur.OilType row)]) with 1%nat.
           simpl List.length. lia.
        -- rewrite H2. unfold add_QuantityMT.
           apply (set_index_other_pool inventory (Pur.OilType row) Crude Refined idx rest
                    (fun r => Inv.QuantityMT r + Pur.QuantityMT row) Hi).
           discriminate.
      * apply (IH edited_df shown inventory Hrows).
Qed.

(** X5.  When every grade has a Crude row, an edit of the shipments table,
    of any number of rows at once, fires one credit for each row that it
    newly sets to Reached Factory and never touches a Refined row, so the
    dashboard's total Refined is the same number after as before. *)
Theorem status_change_credits_new_arrivals (purchases : Purchases) (inventory : Inventory)
    (edits : list (option ShipmentStatus)) :
  (forall oil, index_where (oil_and_type oil Crude) inventory <> []) ->
  let arrived := newly_arrived purchases (Purchase.data_editor purchases edits) in
  let result := Purchase.status_change purchases inventory edits in
  credits (fst result) = List.length arrived
  /\ set_index_OilType (snd (snd result)) Refined = set_index_OilType inventory Refined
  /\ Dashboard.total_stock (snd (snd result)) Refined
     = Dashboard.total_stock inventory Refined.
Proof.
  intros Hrows arrived result. unfold result, arrived, Purchase.status_change.
  destruct (Purchase.equals (Purchase.data_editor purchases edits) purchases) eqn:E; simpl negb;
    cbv iota.
  - rewrite (equals_newly_arrived _ _ E). simpl.
    split; [reflexivity|]. split; reflexivity.
  - pose proof (status_loop_totals purchases (Purchase.data_editor purchases edits)
                  [] inventory Hrows) as (H1 & H2).
    destruct (Purchase.status_loop _ _ _) as [shown inventory']. simpl in *.
    split; [|split; [exact H2|apply total_stock_rows; exact H2]].
    rewrite credits_app, H1.
    change (credits [Purchase.info_changes_saved]) with 0%nat.
    change (credits []) with 0%nat. lia.
Qed.

(** Two shipments in transit and one already at the factory. *)
Lemma status_change_credits_new_arrivals_witness :
  let purchases :=
    [shipment_example;
     Pur.mk "SHP-1700000100" PalmOil 20 74000 1480000 "2024-01-16" AtPort
       "Global Oil Traders";
     Pur.mk "SHP-1700000050" PalmOil 7 74000 518000 "2024-01-15" ReachedFactory
       "Global Oil Traders"] in
  let edits := [Some ReachedFactory; Some ReachedFactory; Some ReachedFactory] in
  let result := Purchase.status_change purchases stock_example edits in
  credits (fst result) = 2%nat
  /\ set_index_OilType (snd (snd result)) Refined = set_index_OilType stock_example Refined
  /\ Dashboard.total_stock (snd (snd result)) Refined
     = Dashboard.total_stock stock_example Refined.
Proof.
  intros purchases edits result.
  destruct (status_change_credits_new_arrivals purchases stock_example edits)
    as (H1 & H2 & H3).
  - intros oil. destruct oil; discriminate.
  - split; [exact H1|]. split; [exact H2|exact H3].
Defined.

Lemma status_change_saves_edits_aux (purchases : Purchases) (inventory : Inventory)
    (edits : list (option ShipmentStatus)) :
  fst (snd (Purchase.status_change purchases inventory edits))
    = Purchase.data_editor purchases edits.
Proof.
  unfold Purchase.status_change.
  destruct (Purchase.equals (Purchase.data_editor purchases edits) purchases) eqn:E; simpl.
  - symmetry. apply equals_data_editor. exact E.
  - destruct (Purchase.status_loop _ _ _). reflexivity.
Qed.

(** X6.  The shipments on file after the status change handler are always
    the edited table, whether it saves or not; and the edited table has the
    rows of the old one in the same order, each with every column but the
    status as it was. *)
Theorem status_change_saves_edits (purchases : Purchases) (inventory : Inventory)
    (edits : list (option ShipmentStatus)) :
  fst (snd (Purchase.status_change purchases inventory edits))
    = Purchase.data_editor purchases edits
  /\ map (fun p => Pur.set_Status p InTransit) (Purchase.data_editor purchases edits)
     = map (fun p => Pur.set_Status p InTransit) purchases.
Proof.
  split.
  - apply status_change_saves_edits_aux.
  - revert edits. induction purchases as [|p purchases IH]; intros [|[s|] edits];
      try reflexivity; simpl; rewrite IH; reflexivity.
Qed.

(** ** From a logged purchase to the Crude stock *)






(** ** Refining makes a sale possible *)





(** ** The two copies of the price calculation *)

Lemma sales_quote_agrees_with_dashboard_aux (day_of_year : Z) (g : Oil) (q d : Q) :
  0 < d ->
  Sales.calculate_sale_price day_of_year g q d = App.calculate_sale_price day_of_year g q d.
Proof.
  intros Hd. unfold Sales.calculate_sale_price, App.calculate_sale_price.
  apply Qle_bool_false in Hd. rewrite Hd, orb_false_r. reflexivity.
Qed.

(** X9.  For a positive distance the price calculation of the sales page
    returns what the one of the dashboard returns, for every day, grade and
    quantity. *)
Theorem sales_quote_agrees_with_dashboard (day_of_year : Z) (g : Oil) (q d : Q) :
  0 < d ->
  Sales.calculate_sale_price day_of_year g q d = App.calculate_sale_price day_of_year g q d.
Proof. exact (sales_quote_agrees_with_dashboard_aux day_of_year g q d). Qed.

Lemma sales_quote_agrees_with_dashboard_witness :
  Sales.calculate_sale_price 16 PalmOil (1 # 10) 100
  = App.calculate_sale_price 16 PalmOil (1 # 10) 100.
Proof. apply (sales_quote_agrees_with_dashboard 16 PalmOil (1 # 10) 100). reflexivity. Defined.

Lemma new_sale_form_saved_order (day_of_year : Z) (now : Q) (sales sales' : SalesTable)
    (inventory inventory' : Inventory) (vendor_name destination : string)
    (distance_km : Z) (oil : Oil) (q : Q) (order_date : string) (m : Sales.message) :
  Sales.new_sale_form day_of_year now sales inventory vendor_name destination
    distance_km oil q order_date = Some (m, (sales', inventory')) ->
  m <> Sales.warning_fill_fields ->
  exists status,
    sales' = sales ++
      [Sal.mk (Sales.order_id now) vendor_name destination distance_km oil q
         (fst (App.calculate_sale_price day_of_year oil q (inject_Z distance_km)))
         order_date status]
    /\ (status = UnderProcess \/ status = Confirmed).
Proof.
  unfold Sales.new_sale_form.
  destruct (oil_options_labels _ _); [|discriminate].
  destruct (Sales.calculate_sale_price day_of_year oil q (inject_Z distance_km))
    as [final_price price_per_lt] eqn:Eq.
  destruct (is_empty vendor_name || is_empty destination || Qle_bool q 0
            || (distance_km <=? 0)%Z) eqn:Ev;
    [intros E Hm; inversion E; subst; contradiction|].
  apply orb_false_iff in Ev. destruct Ev as [_ Ed]. apply Z.leb_gt in Ed.
  assert (Hd : 0 < inject_Z distance_km).
  { change 0 with (inject_Z 0). rewrite <- Zlt_Qlt. exact Ed. }
  rewrite (sales_quote_agrees_with_dashboard_aux day_of_year oil q _ Hd) in Eq.
  rewrite Eq. simpl fst.
  destruct (loc_QuantityMT _ _) as [a|]; [|discriminate].
  destruct (Qgt_bool q a).
  - intros E _; inversion E; subst. exists UnderProcess. auto.
  - destruct (index_where (oil_and_type oil Refined) inventory) as [|ri rrest];
      [discriminate|].
    intros E _; inversion E; subst. exists Confirmed. auto.
Qed.

(** X10.  Every order that the sales form saves is appended after the
    orders on file, carries the fields that were entered and the id made
    from the clock, has status Under Process or Confirmed, and its sale
    price is the total that the dashboard's calculation gives for its
    grade, quantity and distance. *)
Theorem booked_order_records_quote (day_of_year : Z) (now : Q) (sales sales' : SalesTable)
    (inventory inventory' : Inventory) (vendor_name destination : string)
    (distance_km : Z) (oil : Oil) (q : Q) (order_date : string) (m : Sales.message) :
  Sales.new_sale_form day_of_year now sales inventory vendor_name destination
    distance_km oil q order_date = Some (m, (sales', inventory')) ->
  m <> Sales.warning_fill_fields ->
  exists status,
    sales' = sales ++
      [Sal.mk (Sales.order_id now) vendor_name destination distance_km oil q
         (fst (App.calculate_sale_price day_of_year oil q (inject_Z distance_km)))
         order_date status]
    /\ (status = UnderProcess \/ status = Confirmed).
Proof.
  exact (new_sale_form_saved_order day_of_year now sales sales' inventory inventory'
           vendor_name destination distance_km oil q order_date m).
Qed.

Lemma booked_order_records_quote_witness :
  exists status,
    sales (step ledger_example
             (BookOrder 16 1700000200 "National Retailers" "Mumbai Warehouse" 100
                CrudeSunflowerOil 2 "2024-01-16"))
    = [] ++
      [Sal.mk (Sales.order_id 1700000200) "National Retailers" "Mumbai Warehouse" 100
         CrudeSunflowerOil 2
         (fst (App.calculate_sale_price 16 CrudeSunflowerOil 2 (inject_Z 100)))
         "2024-01-16" status]
    /\ (status = UnderProcess \/ status = Confirmed).
Proof.
  apply (booked_order_records_quote 16 1700000200 [] _ stock_example
           (sub_QuantityMT stock_example 7 2) "National Retailers" "Mumbai Warehouse" 100
           CrudeSunflowerOil 2 "2024-01-16"
           (Sales.success_confirmed "ORD-1700000200" 2 CrudeSunflowerOil)).
  - reflexivity.
  - discriminate.
Defined.

(** ** How far the quote is from the unrounded price *)



(** ** The price ticker *)

(** X12.  On every day of the year and for every grade the current price
    is positive, the change shown against the previous day is positive, and
    the ticker is always drawn with the "inverse" colour. *)
Theorem ticker_always_rises (day_of_year : Z) (oil : Oil) :
  (1 <= day_of_year <= 366)%Z ->
  (0 < current_prices day_of_year oil)%Z
  /\ 0 < Dashboard.delta day_of_year oil
  /\ Dashboard.ticker_color day_of_year oil = Dashboard.inverse.
Proof.
  intros [Hday _].
  pose proof (current_prices_bound day_of_year oil Hday) as Hp.
  assert (Hdelta : Dashboard.delta day_of_year oil
                   == inject_Z (current_prices day_of_year oil) * (1 # 100)).
  { unfold Dashboard.delta. simpl. unfold previous_day_prices. ring. }
  assert (Hpos : 0 < Dashboard.delta day_of_year oil) by (rewrite Hdelta; lra).
  split; [|split; [exact Hpos|]].
  - rewrite Zlt_Qlt. change (inject_Z 0) with 0. lra.
  - unfold Dashboard.ticker_color.
    assert (E : Qgt_bool 0 (Dashboard.delta day_of_year oil) = false).
    { apply Qgt_bool_false. lra. }
    rewrite E. reflexivity.
Qed.

Lemma ticker_always_rises_witness :
  (0 < current_prices 366 PalmOil)%Z
  /\ 0 < Dashboard.delta 366 PalmOil
  /\ Dashboard.ticker_color 366 PalmOil = Dashboard.inverse.
Proof. apply (ticker_always_rises 366 PalmOil). lia. Defined.

(** ** Ids issued in different seconds *)

Lemma str_of_int_inj (a b : Z) : str_of_int a = str_of_int b -> a = b.
Proof.
  unfold str_of_int. intros H.
  assert (Hn : forall z, Z.to_int z <> Decimal.Pos Decimal.Nil
                         /\ Z.to_int z <> Decimal.Neg Decimal.Nil).
  { intros [|p|p]; simpl; split; try discriminate; intros E; inversion E as [E'];
      exact (DecimalPos.Unsigned.to_uint_nonnil p E'). }
  apply (f_equal NilZero.int_of_string) in H.
  rewrite !NilZero.isi in H; try apply Hn.
  inversion H as [H']. apply (f_equal Z.of_int) in H'.
  rewrite !DecimalZ.of_to in H'. exact H'.
Qed.

Lemma py_int_next_second (t1 t2 : Q) :
  0 <= t1 -> t1 + 1 <= t2 -> (py_int t1 < py_int t2)%Z.
Proof.
  intros H1 H2. unfold py_int.
  assert (E1 : Qle_bool 0 t1 = true) by (apply Qle_bool_iff; exact H1).
  assert (E2 : Qle_bool 0 t2 = true) by (apply Qle_bool_iff; lra).
  rewrite E1, E2. rewrite Zlt_Qlt.
  pose proof (Qfloor_le t1). pose proof (Qlt_floor t2) as Hf.
  rewrite inject_Z_plus in Hf. change (inject_Z 1) with 1 in Hf. lra.
Qed.

(** X13.  Two calls at least one second apart (the sales page sleeps two
    seconds after each booking) get different shipment ids and different
    order ids; and two ids are equal exactly when the whole seconds of the
    clock are. *)
Theorem ids_differ_across_seconds (t1 t2 : Q) :
  0 <= t1 -> t1 + 1 <= t2 ->
  Purchase.shipment_id t1 <> Purchase.shipment_id t2
  /\ Sales.order_id t1 <> Sales.order_id t2
  /\ (forall a b, Purchase.shipment_id a = Purchase.shipment_id b <-> py_int a = py_int b)
  /\ (forall a b, Sales.order_id a = Sales.order_id b <-> py_int a = py_int b).
Proof.
  intros H1 H2.
  pose proof (py_int_next_second t1 t2 H1 H2) as Hlt.
  assert (Hs : forall a b, Purchase.shipment_id a = Purchase.shipment_id b
                           <-> py_int a = py_int b).
  { intros a b. unfold Purchase.shipment_id. split; intros H.
    - simpl in H. inversion H as [H']. apply str_of_int_inj. exact H'.
    - rewrite H. reflexivity. }
  assert (Ho : forall a b, Sales.order_id a = Sales.order_id b <-> py_int a = py_int b).
  { intros a b. unfold Sales.order_id. split; intros H.
    - simpl in H. inversion H as [H']. apply str_of_int_inj. exact H'.
    - rewrite H. reflexivity. }
  split; [|split; [|split; assumption]].
  - intros E. apply Hs in E. lia.
  - intros E. apply Ho in E. lia.
Qed.

Lemma ids_differ_across_seconds_witness :
  Purchase.shipment_id (17000000007 # 10) <> Purchase.shipment_id (17000000027 # 10)
  /\ Sales.order_id (17000000007 # 10) <> Sales.order_id (17000000027 # 10)
  /\ (forall a b, Purchase.shipment_id a = Purchase.shipment_id b <-> py_int a = py_int b)
  /\ (forall a b, Sales.order_id a = Sales.order_id b <-> py_int a = py_int b).
Proof.
  apply (ids_differ_across_seconds (17000000007 # 10) (17000000027 # 10)); discriminate.
Defined.

(** ** Inputs that the pages turn down *)

Lemma state_eta (st : State) : mkState (purchases st) (sales st) (inventory st) = st.
Proof. destruct st; reflexivity. Qed.

Lemma oil_options_labels_None (inventory : Inventory) (ty : InventoryType) (oil : Oil) :
  snapshot inventory oil ty = None ->
  oil_options_labels (set_index_OilType inventory ty) OIL_TYPES = None.
Proof.
  unfold snapshot. intros H. unfold OIL_TYPES. simpl.
  destruct oil; rewrite H;
    repeat match goal with
           | |- context [loc_QuantityMT ?i ?o] =>
               destruct (loc_QuantityMT i o); try reflexivity
           end;
    reflexivity.
Qed.

Lemma data_editor_no_edit (purchases : Purchases) (n : nat) :
  Purchase.data_editor purchases (repeat None n) = purchases.
Proof.
  revert n. induction purchases as [|p l IH]; intros [|n]; try reflexivity.
  simpl. rewrite IH. reflexivity.
Qed.

(** X14.  What the pages turn down leaves the three files exactly as they
    were: a purchase without supplier or with a quantity that is not
    positive; a refining of a quantity that is not positive or above the
    Crude stock, or on an inventory where the Crude stock of some grade
    cannot be read (no row, or more than one); a booking with an empty
    vendor or destination, a quantity or a distance that is not positive,
    or on an inventory where the Refined stock of some grade cannot be
    read; and a visit of the shipments table without an edit. *)
Theorem rejected_inputs_change_nothing (st : State) :
  (forall now supplier oil q price date,
     supplier = EmptyString \/ q <= 0 ->
     step st (LogPurchase now supplier oil q price date) = st)
  /\ (forall oil x,
        x <= 0
        \/ (exists c, snapshot (inventory st) oil Crude = Some c /\ c < x)
        \/ (exists oil0, snapshot (inventory st) oil0 Crude = None) ->
        step st (Refine oil x) = st)
  /\ (forall day_of_year now vendor_name destination distance_km oil q order_date,
        vendor_name = EmptyString \/ destination = EmptyString \/ q <= 0
        \/ (distance_km <= 0)%Z
        \/ (exists oil0, snapshot (inventory st) oil0 Refined = None) ->
        step st (BookOrder day_of_year now vendor_name destination distance_km oil q
                   order_date) = st)
  /\ (forall n, step st (EditShipments (repeat None n)) = st).
Proof.
  split; [|split; [|split]].
  - intros now supplier oil q price date H. simpl. unfold Purchase.new_purchase_form.
    destruct H as [H|H].
    + subst supplier. simpl. apply state_eta.
    + apply Qle_bool_iff in H. rewrite H, orb_true_r. apply state_eta.
  - intros oil x H. simpl. unfold Refining.refining_form.
    destruct (oil_options_labels _ _) eqn:El; [|reflexivity].
    fold (snapshot (inventory st) oil Crude).
    destruct (snapshot (inventory st) oil Crude) as [c|] eqn:Hc; [|reflexivity].
    destruct H as [H|[(c' & Hc' & H)|(oil0 & H)]].
    + apply Qle_bool_iff in H. rewrite H. apply state_eta.
    + inversion Hc'; subst c'. destruct (Qle_bool x 0); [apply state_eta|].
      apply Qgt_bool_true in H. rewrite H. apply state_eta.
    + rewrite (oil_options_labels_None _ _ _ H) in El. discriminate.
  - intros day_of_year now vendor_name destination distance_km oil q order_date H.
    simpl. unfold Sales.new_sale_form.
    destruct (oil_options_labels _ _) eqn:El; [|reflexivity].
    destruct (Sales.calculate_sale_price _ _ _ _) as [final_price price_per_lt].
    assert (E : is_empty vendor_name || is_empty destination || Qle_bool q 0
                || (distance_km <=? 0)%Z = true).
    { destruct H as [H|[H|[H|[H|(oil0 & H)]]]].
      - subst. reflexivity.
      - subst. simpl. rewrite orb_true_r. reflexivity.
      - apply Qle_bool_iff in H. rewrite H, !orb_true_r. reflexivity.
      - apply Z.leb_le in H. rewrite H, !orb_true_r. reflexivity.
      - rewrite (oil_options_labels_None _ _ _ H) in El. discriminate. }
    rewrite E. apply state_eta.
  - intros n. simpl. unfold Purchase.status_change.
    rewrite data_editor_no_edit, equals_refl. simpl. apply state_eta.
Qed.

(** ** Files that have just been created *)

(** X15.  On the files that the dashboard creates when none exist, every
    grade has a Crude and a Refined stock, all of them zero; so no
    refining, whatever the grade and the quantity, changes anything, and
    every valid booking is saved as Under Process without touching the
    inventory. *)
Theorem fresh_files_hold_no_stock :
  let fresh := Dashboard.initialize_data_files None None None in
  (forall oil ty, snapshot (inventory fresh) oil ty = Some 0)
  /\ purchases fresh = [] /\ sales fresh = []
  /\ (forall oil x, step fresh (Refine oil x) = fresh)
  /\ (forall day_of_year now vendor_name destination distance_km oil q order_date,
        vendor_name <> EmptyString -> destination <> EmptyString ->
        0 < q -> (0 < distance_km)%Z ->
        exists order,
          step fresh (BookOrder day_of_year now vendor_name destination distance_km oil q
                        order_date)
          = mkState [] [order] (inventory fresh)
          /\ Sal.Status order = UnderProcess).
Proof.
  cbv zeta.
  assert (Hz : forall oil ty,
             snapshot (inventory (Dashboard.initialize_data_files None None None)) oil ty
             = Some 0).
  { intros oil ty. destruct oil, ty; reflexivity. }
  split; [exact Hz|]. split; [reflexivity|]. split; [reflexivity|]. split.
  - intros oil x.
    assert (Hl : exists labels,
               oil_options_labels
                 (set_index_OilType Dashboard.initial_inventory Crude) OIL_TYPES
               = Some labels) by (eexists; reflexivity).
    destruct Hl as (labels & Hl).
    simpl step. unfold Refining.refining_form.
    change (inventory (Dashboard.initialize_data_files None None None))
      with Dashboard.initial_inventory.
    rewrite Hl.
    fold (snapshot Dashboard.initial_inventory oil Crude).
    rewrite (Hz oil Crude : snapshot Dashboard.initial_inventory oil Crude = Some 0).
    destruct (Qle_bool x 0) eqn:E; [reflexivity|].
    assert (E' : Qgt_bool x 0 = true).
    { apply Qgt_bool_true. apply Qle_bool_false. exact E. }
    rewrite E'. reflexivity.
  - intros day_of_year now vendor_name destination distance_km oil q order_date
           Hv Hd Hq Hdist.
    assert (Hl : exists labels,
               oil_options_labels
                 (set_index_OilType Dashboard.initial_inventory Refined) OIL_TYPES
               = Some labels) by (eexists; reflexivity).
    destruct Hl as (labels & Hl).
    simpl step. unfold Sales.new_sale_form.
    change (inventory (Dashboard.initialize_data_files None None None))
      with Dashboard.initial_inventory.
    rewrite Hl.
    destruct (Sales.calculate_sale_price _ _ _ _) as [final_price price_per_lt].
    rewrite (is_empty_false _ Hv), (is_empty_false _ Hd).
    assert (E1 : Qle_bool q 0 = false) by (apply Qle_bool_false; exact Hq).
    assert (E2 : (distance_km <=? 0)%Z = false) by (apply Z.leb_gt; exact Hdist).
    rewrite E1, E2. simpl orb. cbv iota.
    fold (snapshot Dashboard.initial_inventory oil Refined).
    rewrite (Hz oil Refined : snapshot Dashboard.initial_inventory oil Refined = Some 0).
    assert (E3 : Qgt_bool q 0 = true) by (apply Qgt_bool_true; exact Hq).
    rewrite E3. eexists. split; reflexivity.
Qed.

Lemma rejected_inputs_change_nothing_witness :
  step ledger_example (LogPurchase 1700000100 "" PalmOil 20 74000 "2024-01-16")
    = ledger_example
  /\ step ledger_example (Refine PalmOil 5) = ledger_example
  /\ step ledger_example
       (BookOrder 16 1700000200 "National Retailers" "Mumbai Warehouse" 0 PalmOil 1
          "2024-01-16") = ledger_example
  /\ step ledger_without_rows (Refine PalmOil 1) = ledger_without_rows.
Proof.
  pose proof (rejected_inputs_change_nothing ledger_example) as (H1 & H2 & H3 & _).
  pose proof (rejected_inputs_change_nothing ledger_without_rows) as (_ & H2' & _).
  split; [apply H1; left; reflexivity|].
  split; [apply H2; right; left; exists 4; split; reflexivity|].
  split; [apply H3; right; right; right; left; discriminate|].
  apply H2'. right; right. exists CrudeDegummedOil. reflexivity.
Defined.

Lemma fresh_files_hold_no_stock_witness :
  exists order,
    step (Dashboard.initialize_data_files None None None)
      (BookOrder 16 1700000200 "National Retailers" "Mumbai Warehouse" 100 PalmOil 1
         "2024-01-16")
    = mkState [] [order] (inventory (Dashboard.initialize_data_files None None None))
    /\ Sal.Status order = UnderProcess.
Proof.
  apply (proj2 (proj2 (proj2 (proj2 fresh_files_hold_no_stock))));
    try discriminate; reflexivity.
Defined.

(** ** The price of a saved order *)

Lemma app_quote_at_least (day_of_year : Z) (g : Oil) (q d : Q) :
  (1 <= day_of_year)%Z -> 0 < q -> 1 <= d ->
  (13 <= fst (App.calculate_sale_price day_of_year g q d))%Z.
Proof.
  intros Hday Hq Hd.
  rewrite (app_quote_unfold day_of_year g q d Hq); [|lra]. simpl fst.
  pose proof (total_price_eq day_of_year g q d) as Heq.
  set (price := total_price day_of_year g q d) in *.
  pose proof (py_round_bounds price) as [Hlo _].
  pose proof (current_prices_bound day_of_year g Hday).
  pose proof (litres_per_tonne_bounds g).
  assert (H12 : inject_Z 12 < inject_Z (py_round price)).
  { change (inject_Z 12) with 12. nra. }
  rewrite <- Zlt_Qlt in H12. lia.
Qed.

(** X16.  On any day of the year, an order that the sales form saves never
    carries the degenerate price 0: its sale price is at least 13, the
    rounded transport cost and tax of one kilometre. *)
Theorem saved_order_has_a_price (day_of_year : Z) (now : Q) (sales sales' : SalesTable)
    (inventory inventory' : Inventory) (vendor_name destination : string)
    (distance_km : Z) (oil : Oil) (q : Q) (order_date : string) (m : Sales.message) :
  (1 <= day_of_year <= 366)%Z ->
  Sales.new_sale_form day_of_year now sales inventory vendor_name destination
    distance_km oil q order_date = Some (m, (sales', inventory')) ->
  m <> Sales.warning_fill_fields ->
  exists order,
    sales' = sales ++ [order] /\ (13 <= Sal.SalePrice order)%Z.
Proof.
  intros [Hday _] E Hm.
  destruct (new_sale_form_saved_order _ _ _ _ _ _ _ _ _ _ _ _ _ E Hm) as (status & Hs & _).
  eexists. split; [exact Hs|]. simpl.
  revert E. unfold Sales.new_sale_form.
  destruct (oil_options_labels _ _); [|discriminate].
  destruct (Sales.calculate_sale_price _ _ _ _) as [final_price price_per_lt].
  destruct (is_empty vendor_name || is_empty destination || Qle_bool q 0
            || (distance_km <=? 0)%Z) eqn:Ev;
    [intros E; inversion E; subst; contradiction|].
  intros _.
  apply orb_false_iff in Ev. destruct Ev as [Ev Ed].
  apply orb_false_iff in Ev. destruct Ev as [_ Eq].
  apply Qle_bool_false in Eq. apply Z.leb_gt in Ed.
  apply app_quote_at_least; [exact Hday|exact Eq|].
  change 1 with (inject_Z 1). rewrite <- Zle_Qle. lia.
Qed.

Lemma saved_order_has_a_price_witness :
  exists order,
    sales (step ledger_example
             (BookOrder 16 1700000200 "National Retailers" "Mumbai Warehouse" 1
                PalmOil (1 # 10) "2024-01-16"))
    = [] ++ [order]
    /\ (13 <= Sal.SalePrice order)%Z.
Proof.
  apply (saved_order_has_a_price 16 1700000200 [] _ stock_example stock_example
           "National Retailers" "Mumbai Warehouse" 1 PalmOil (1 # 10) "2024-01-16"
           (Sales.warning_under_process 0 PalmOil)).
  - lia.
  - reflexivity.
  - discriminate.
Defined.

(** ** The records on file stay as the forms wrote them *)






(** ** The count of active shipments *)

Lemma active_shipments_cons (p : Pur.row) (purchases : Purchases) :
  Dashboard.active_shipments (p :: purchases)
  = ((if ShipmentStatus_eqb (Pur.Status p) ReachedFactory then 0 else 1)
     + Dashboard.active_shipments purchases)%nat.
Proof. unfold Dashboard.active_shipments. simpl. destruct (Pur.Status p); reflexivity. Qed.

Lemma active_shipments_select (purchases : Purchases) (i : nat) (p : Pur.row)
    (s : ShipmentStatus) :
  nth_error purchases i = Some p ->
  (Dashboard.active_shipments (Purchase.data_editor purchases (Purchase.select_status i s))
   + (if ShipmentStatus_eqb (Pur.Status p) ReachedFactory then 0 else 1)
   = Dashboard.active_shipments purchases
     + (if ShipmentStatus_eqb s ReachedFactory then 0 else 1))%nat.
Proof.
  revert i. induction purchases as [|a l IH]; intros i H.
  - destruct i; discriminate.
  - destruct i as [|i]; simpl in H.
    + inversion H; subst a. simpl Purchase.data_editor.
      rewrite data_editor_nil, !active_shipments_cons. simpl Pur.Status. lia.
    + change (Purchase.data_editor (a :: l) (Purchase.select_status (S i) s))
        with (a :: Purchase.data_editor l (Purchase.select_status i s)).
      rewrite !active_shipments_cons. specialize (IH i H). lia.
Qed.

(** X18.  A status-transition call on a shipment changes the dashboard's
    count of active shipments by that shipment alone: setting an active
    shipment (In Transit or At Port) to Reached Factory lowers the count by
    one, moving it back raises it by one, and any other call leaves it as
    it was. *)
Theorem update_status_moves_active_count (st : State) (i : nat) (p : Pur.row)
    (s : ShipmentStatus) :
  nth_error (purchases st) i = Some p ->
  (Dashboard.active_shipments (purchases (snd (update_status st i s)))
   + (if ShipmentStatus_eqb (Pur.Status p) ReachedFactory then 0 else 1)
   = Dashboard.active_shipments (purchases st)
     + (if ShipmentStatus_eqb s ReachedFactory then 0 else 1))%nat.
Proof.
  intros H.
  assert (E : purchases (snd (update_status st i s))
              = Purchase.data_editor (purchases st) (Purchase.select_status i s)).
  { unfold update_status.
    pose proof (status_change_saves_edits_aux (purchases st) (inventory st)
                  (Purchase.select_status i s)) as Hs.
    destruct (Purchase.status_change _ _ _) as [shown [purchases' inventory']].
    exact Hs. }
  rewrite E. apply active_shipments_select. exact H.
Qed.

Lemma update_status_moves_active_count_witness :
  (Dashboard.active_shipments (purchases (snd (update_status ledger_example 0 ReachedFactory)))
   + 1 = Dashboard.active_shipments (purchases ledger_example) + 0)%nat.
Proof.
  apply (update_status_moves_active_count ledger_example 0 shipment_example ReachedFactory).
  reflexivity.
Defined.
